(** * Apartment management system: data access and audit subsystem

    A shallow embedding of [tt_final.py]: the relational store behind the
    cx_Oracle connection, the command classes, the observer that writes the
    audit trail, and the tenant/admin operations that mutate the store.

    The store is a record of tables (lists of rows, in insertion order).
    The connection carries two copies of it: the state that has been
    committed and the working state of the open transaction.  Every call of
    [cursor.execute] and [connection.commit] asks the environment whether the
    server answers or raises [cx_Oracle.DatabaseError]; the environment also
    supplies the server clock ([SYSDATE], column defaults).

    The statements name a table with or without the [SYSTEM.] prefix; the
    program connects as that user, so both denote one table.  Values that the
    forms hand over as text for numeric columns ([apartment_id],
    [amount_paid]) are integers here; a text the server cannot convert is one
    of the errors the environment may raise. *)

From Stdlib Require Import ZArith List String Bool Lia DecimalString.
Import ListNotations.
Local Open Scope Z_scope.

(** ** Values *)

(** [datetime.date]: year, month, day. *)
Definition date := (Z * Z * Z)%type.

(** Python's [str] on an integer, as used by the f-strings. *)
Definition str (z : Z) : string := NilZero.string_of_int (Z.to_int z).

(** [sep.join(xs)] for a list of strings. *)
Fixpoint join (sep : string) (xs : list string) : string :=
  match xs with
  | [] => EmptyString
  | [x] => x
  | x :: rest => (x ++ sep ++ join sep rest)%string
  end.

(** A fetched column holds [None] for NULL.  The strings of a list of
    fetched values, or the position (counted from [i]) of the first [None]. *)
Fixpoint strings (i : Z) (xs : list (option string)) : list string + Z :=
  match xs with
  | [] => inl []
  | Some x :: rest =>
      match strings (i + 1) rest with
      | inl ys => inl (x :: ys)
      | inr j => inr j
      end
  | None :: _ => inr i
  end.

(** ** Tables

    The schema is created outside the application; the columns are the ones
    the SQL statements of the source name. *)

Module Apartment.
Record row := mk
  { apartment_id : Z; apartment_name : string; address : string;
    num_of_rooms : Z; rent : Z }.
End Apartment.

Module Tenant.
(** [due_amount] is never supplied by the application's INSERT, so it may
    be NULL ([None]). *)
Record row := mk
  { house_no : string; tenant_name : string; phone_number : string;
    apartment_id : Z; move_in_date : date; due_amount : option Z }.
End Tenant.

Module Payment.
Record row := mk
  { payment_id : Z; house_no : string; payment_date : string;
    amount_paid : Z; payment_method : string }.
End Payment.

Module Maintenance.
(** [status] is never supplied by the application's INSERT; NULL is [None].
    An empty [issue_description] is stored as NULL. *)
Record row := mk
  { apartment_id : Z; house_no : string; issue_description : option string;
    request_date : Z; status : option string }.
End Maintenance.

Module Audit_Tenant.
Record row := mk
  { audit_id : Z; house_no : string;
    tenant_name : option string; phone_number : option string;
    apartment_id : option Z; move_in_date : option date;
    action : string; change_date : Z }.
End Audit_Tenant.

Record DB := mkDB
  { apartments : list Apartment.row;
    tenants : list Tenant.row;
    payments : list Payment.row;
    maintenance : list Maintenance.row;
    audit_tenant : list Audit_Tenant.row }.

Definition set_tenants (ts : list Tenant.row) (db : DB) : DB :=
  mkDB (apartments db) ts (payments db) (maintenance db) (audit_tenant db).
Definition set_payments (ps : list Payment.row) (db : DB) : DB :=
  mkDB (apartments db) (tenants db) ps (maintenance db) (audit_tenant db).
Definition set_maintenance (ms : list Maintenance.row) (db : DB) : DB :=
  mkDB (apartments db) (tenants db) (payments db) ms (audit_tenant db).
Definition set_audit_tenant (a : list Audit_Tenant.row) (db : DB) : DB :=
  mkDB (apartments db) (tenants db) (payments db) (maintenance db) a.

(** ** The connection *)

(** What the server does with one request: it answers (and the statement
    sees the server clock), or the driver raises [cx_Oracle.DatabaseError]
    (lost connection, conversion error, violated constraint of the
    externally created schema, ...). *)
Inductive reply := Done (sysdate : Z) | Refused (message : string).

(** Column defaults of the externally created schema that the statements
    rely on. *)
Record Schema := mkSchema
  { due_amount_default : option Z }.

(** The singleton [DatabaseConnection._instance.connection]. *)
Record Connection := mkConnection
  { schema : Schema;
    committed : DB;
    working : DB;
    env : nat -> reply;
    calls : nat }.

Definition set_working (db : DB) (c : Connection) : Connection :=
  mkConnection (schema c) (committed c) db (env c) (calls c).
Definition set_committed (db : DB) (c : Connection) : Connection :=
  mkConnection (schema c) db (working c) (env c) (calls c).
Definition next_call (c : Connection) : Connection :=
  mkConnection (schema c) (committed c) (working c) (env c) (S (calls c)).

(** A command or application object holds either [None] or a reference to
    the singleton connection. *)
Inductive reference := NoConnection | TheConnection.

(** ** Exceptions and the computation monad *)

Inductive exn :=
| DatabaseError (message : string)
| KeyError (key : string)
| TypeError (message : string).

(** [str(e)] *)
Definition exn_str (e : exn) : string :=
  match e with
  | DatabaseError message => message
  | KeyError key => ("'" ++ key ++ "'")%string
  | TypeError message => message
  end.

Inductive outcome (A : Type) :=
| Returned (a : A)
| Raised (e : exn).
Arguments Returned {A} a.
Arguments Raised {A} e.

Definition Db (A : Type) := Connection -> outcome A * Connection.

Definition ret {A} (a : A) : Db A := fun c => (Returned a, c).
Definition raise {A} (e : exn) : Db A := fun c => (Raised e, c).
Definition bind {A B} (m : Db A) (k : A -> Db B) : Db B :=
  fun c => match m c with
           | (Returned a, c') => k a c'
           | (Raised e, c') => (Raised e, c')
           end.

Notation "x <- m ;; k" := (bind m (fun x => k))
  (at level 61, m at next level, right associativity).
Notation "m ;; k" := (bind m (fun _ => k))
  (at level 61, right associativity).

(** [try: body except cx_Oracle.DatabaseError as e: handler e] *)
Definition try_except {A} (body : Db A) (handler : string -> Db A) : Db A :=
  fun c => match body c with
           | (Raised (DatabaseError e), c') => handler e c'
           | r => r
           end.

(** [try: body except Exception as e: handler e] *)
Definition try_except_Exception {A} (body : Db A) (handler : exn -> Db A) : Db A :=
  fun c => match body c with
           | (Raised e, c') => handler e c'
           | r => r
           end.

(** [cursor.execute(stmt)]: a statement is a function of the server clock
    and the working state; [None] is a constraint violation detected by the
    statement itself.  A statement that raises leaves the working state as it
    was (statement-level rollback). *)
Definition statement (A : Type) := Schema -> Z -> DB -> option (A * DB).

Definition constraint_violated : string := "ORA-00001: unique constraint violated".

Definition execute {A} (stmt : statement A) : Db A :=
  fun c =>
    let c' := next_call c in
    match env c (calls c) with
    | Refused e => (Raised (DatabaseError e), c')
    | Done now =>
        match stmt (schema c) now (working c) with
        | None => (Raised (DatabaseError constraint_violated), c')
        | Some (a, db') => (Returned a, set_working db' c')
        end
    end.

(** [connection.commit()] *)
Definition commit : Db unit :=
  fun c =>
    let c' := next_call c in
    match env c (calls c) with
    | Refused e => (Raised (DatabaseError e), c')
    | Done _ => (Returned tt, set_committed (working c') c')
    end.

(** [connection.rollback()] *)
Definition rollback : Db unit :=
  fun c => (Returned tt, set_working (committed c) c).

(** [d[key]] on a dict whose key may be missing. *)
Definition getitem {A} (key : string) (v : option A) : Db A :=
  match v with
  | Some a => ret a
  | None => raise (KeyError key)
  end.

(** ** SQL statements *)

Definition query {A} (q : DB -> A) : statement A :=
  fun _ _ db => Some (q db, db).
Definition dml (f : DB -> DB) : statement unit :=
  fun _ _ db => Some (tt, f db).

(** Modelled from the spec: identities that the statements never supply
    ([payment_id], [audit_id]) are assigned by the server; here a value
    above every identity in the table. *)
Definition next_id (ids : list Z) : Z := 1 + fold_right Z.max 0 ids.

(** [cursor.fetchone()] *)
Definition fetchone {A} (rows : list A) : option A := hd_error rows.

(** [bool(x)] for lists. *)
Definition truthy {A} (rows : list A) : bool :=
  match rows with [] => false | _ => true end.

(** ** Commands *)

Module ListApartmentsCommand.
Definition select_apartments : statement (list Apartment.row) :=
  query apartments.

(** The result is Python's [None] or a list of rows. *)
Definition execute (connection : reference) : Db (option (list Apartment.row)) :=
  match connection with
  | NoConnection => ret None
  | TheConnection =>
      try_except
        (apartments <- execute select_apartments ;;
         if truthy apartments then ret (Some apartments) else ret (Some []))
        (fun _ => ret None)
  end.
End ListApartmentsCommand.

(** The three tenant commands keep the constructor arguments as fields. *)
Record TenantCommand := mkTenantCommand
  { connection : reference;
    house_no : string;
    tenant_name : string;
    phone_number : string;
    apartment_id : Z;
    move_in_date : date }.

Definition house_no_is (h : string) (t : Tenant.row) : bool :=
  String.eqb (Tenant.house_no t) h.

Module AddTenantCommand.
(** Modelled from the spec: [house_no] is the primary key of Tenant, so an
    INSERT of an existing [house_no] violates the constraint.  The column
    [due_amount] is not supplied and takes the column default. *)
Definition inserted (cmd : TenantCommand) (sch : Schema) (db : DB) : DB :=
  set_tenants
    (tenants db ++
       [Tenant.mk (house_no cmd) (tenant_name cmd) (phone_number cmd)
          (apartment_id cmd) (move_in_date cmd) (due_amount_default sch)])
    db.

Definition insert_tenant (cmd : TenantCommand) : statement unit :=
  fun sch _ db =>
    if existsb (house_no_is (house_no cmd)) (tenants db) then None
    else Some (tt, inserted cmd sch db).

Definition execute (cmd : TenantCommand) : Db unit :=
  match connection cmd with
  | NoConnection => ret tt
  | TheConnection =>
      try_except
        (execute (insert_tenant cmd) ;; commit)
        (fun _ => rollback)
  end.
End AddTenantCommand.

Module UpdateTenantCommand.
Definition update_row (cmd : TenantCommand) (t : Tenant.row) : Tenant.row :=
  if house_no_is (house_no cmd) t
  then Tenant.mk (Tenant.house_no t) (tenant_name cmd) (phone_number cmd)
         (apartment_id cmd) (move_in_date cmd) (Tenant.due_amount t)
  else t.

Definition updated (cmd : TenantCommand) (db : DB) : DB :=
  set_tenants (map (update_row cmd) (tenants db)) db.

Definition update_tenant (cmd : TenantCommand) : statement unit :=
  dml (updated cmd).

Definition execute (cmd : TenantCommand) : Db unit :=
  match connection cmd with
  | NoConnection => ret tt
  | TheConnection =>
      try_except
        (execute (update_tenant cmd) ;; commit)
        (fun _ => rollback)
  end.
End UpdateTenantCommand.

Record DeleteCommand := mkDeleteCommand
  { del_connection : reference;
    del_house_no : string }.

Module DeleteTenantCommand.
Definition deleted (h : string) (db : DB) : DB :=
  set_tenants (filter (fun t => negb (house_no_is h t)) (tenants db)) db.

Definition delete_tenant (h : string) : statement unit :=
  dml (deleted h).

Definition execute (cmd : DeleteCommand) : Db unit :=
  match del_connection cmd with
  | NoConnection => ret tt
  | TheConnection =>
      try_except
        (execute (delete_tenant (del_house_no cmd)) ;; commit)
        (fun _ => rollback)
  end.
End DeleteTenantCommand.

Module ListTenantsCommand.
Definition execute (connection : reference) : Db (option (list Tenant.row)) :=
  match connection with
  | NoConnection => ret None
  | TheConnection =>
      try_except
        (tenants <- execute (query tenants) ;; ret (Some tenants))
        (fun _ => ret None)
  end.
End ListTenantsCommand.

(** ** Observer: the audit logger *)

(** The [data] dict handed to the observers; [None] is a missing key. *)
Record TenantData := mkTenantData
  { data_house_no : option string;
    data_tenant_name : option string;
    data_phone_number : option string;
    data_apartment_id : option Z;
    data_move_in_date : option date }.

Module AuditLogger.
(** Modelled from the spec: [audit_id] is server-assigned and
    [change_date] defaults to the server clock. *)
Definition logged (now : Z) (h : string) (name phone : option string)
    (apt : option Z) (moved : option date) (action : string) (db : DB) : DB :=
  set_audit_tenant
    (audit_tenant db ++
       [Audit_Tenant.mk
          (next_id (map Audit_Tenant.audit_id (audit_tenant db)))
          h name phone apt moved action now])
    db.

Definition insert_audit (h : string) (name phone : option string)
    (apt : option Z) (moved : option date) (action : string) : statement unit :=
  fun _ now db => Some (tt, logged now h name phone apt moved action db).

Definition update (event_type : string) (data : TenantData) : Db unit :=
  try_except
    ((if String.eqb event_type "DELETE" then
        h <- getitem "house_no" (data_house_no data) ;;
        execute (insert_audit h None None None None event_type)
      else
        h <- getitem "house_no" (data_house_no data) ;;
        n <- getitem "tenant_name" (data_tenant_name data) ;;
        p <- getitem "phone_number" (data_phone_number data) ;;
        a <- getitem "apartment_id" (data_apartment_id data) ;;
        m <- getitem "move_in_date" (data_move_in_date data) ;;
        execute (insert_audit h (Some n) (Some p) (Some a) (Some m) event_type)) ;;
     commit)
    (fun _ => ret tt).
End AuditLogger.

(** [AuditLogger] is the only observer class of the program. *)
Inductive Observer := AuditLoggerObserver.

Definition Observer_update (o : Observer) : string -> TenantData -> Db unit :=
  match o with
  | AuditLoggerObserver => AuditLogger.update
  end.

(** ** Subject: the tenant manager *)

Module TenantManager.
Record t := mk { observers : list Observer }.

Definition init : t := mk [].

Definition register_observer (self : t) (observer : Observer) : t :=
  mk (observers self ++ [observer]).

Fixpoint notify (obs : list Observer) (event_type : string) (data : TenantData)
  : Db unit :=
  match obs with
  | [] => ret tt
  | observer :: rest =>
      Observer_update observer event_type data ;; notify rest event_type data
  end.

Definition notify_observers (self : t) := notify (observers self).

Definition list_apartments (self : t) (command : reference) :=
  ListApartmentsCommand.execute command.

Definition tenant_data (command : TenantCommand) : TenantData :=
  mkTenantData (Some (house_no command)) (Some (tenant_name command))
    (Some (phone_number command)) (Some (apartment_id command))
    (Some (move_in_date command)).

Definition add_tenant (self : t) (command : TenantCommand) : Db unit :=
  AddTenantCommand.execute command ;;
  notify_observers self "INSERT" (tenant_data command).

Definition update_tenant (self : t) (command : TenantCommand) : Db unit :=
  UpdateTenantCommand.execute command ;;
  notify_observers self "UPDATE" (tenant_data command).

Definition delete_tenant (self : t) (command : DeleteCommand) : Db unit :=
  DeleteTenantCommand.execute command ;;
  notify_observers self "DELETE"
    (mkTenantData (Some (del_house_no command)) None None None None).
End TenantManager.

(** The manager built by the main program: one registered [AuditLogger]. *)
Definition tenant_manager : TenantManager.t :=
  TenantManager.register_observer TenantManager.init AuditLoggerObserver.

(** What a [messagebox] call shows. *)
Inductive dialog :=
| showinfo (title message : string)
| showwarning (title message : string)
| showerror (title message : string).

(** ** Strategy: payment methods *)

Inductive PaymentStrategy := CreditCardPayment | CashPayment | BankTransferPayment.

(** The line each strategy prints. *)
Definition process_payment (strategy : PaymentStrategy)
    (house_no payment_date : string) (amount_paid : Z) : string :=
  let label :=
    match strategy with
    | CreditCardPayment => "credit card"
    | CashPayment => "cash"
    | BankTransferPayment => "bank transfer"
    end%string in
  ("Processing " ++ label ++ " payment of " ++ str amount_paid ++
   " for house " ++ house_no ++ " on " ++ payment_date ++ ".")%string.

(** The entries of the payment method menu, and the if/elif chain that picks
    the strategy for the selected entry. *)
Definition payment_method_menu : list string :=
  ["Credit Card"; "Cash"; "Bank Transfer"]%string.

Definition strategy_of (payment_method : string) : option PaymentStrategy :=
  if String.eqb payment_method "Credit Card" then Some CreditCardPayment
  else if String.eqb payment_method "Cash" then Some CashPayment
  else if String.eqb payment_method "Bank Transfer" then Some BankTransferPayment
  else None.

(** ** The tenant's window *)

Module TenantApp.
Definition select_tenant (house_no : string) : statement (option Tenant.row) :=
  query (fun db => fetchone (filter (house_no_is house_no) (tenants db))).

(** [SELECT due_amount FROM Tenant WHERE house_no = :house_no], first row. *)
Definition due_amount_of (house_no : string) (db : DB) : option (option Z) :=
  option_map Tenant.due_amount
    (fetchone (filter (house_no_is house_no) (tenants db))).

Definition view_due_amount (self_house_no : string) : Db dialog :=
  try_except
    (due_amount_data <- execute (query (due_amount_of self_house_no)) ;;
     match due_amount_data with
     | Some due_amount =>
         ret (showinfo "Due Amount"
                ("The due amount for tenant with house number " ++ self_house_no ++
                 " is: " ++ match due_amount with
                            | Some due => str due
                            | None => "None"
                            end))
     | None =>
         ret (showerror "No Data Found"
                ("No tenant found with house number " ++ self_house_no ++ "."))
     end)
    (fun _ =>
       ret (showerror "Database Error"
              "An error occurred while retrieving the due amount.")).

(** [payment_id] is server-assigned; [TO_DATE] keeps the date that the
    string denotes (a string it cannot convert is a [DatabaseError] of the
    environment). *)
Definition recorded (house_no payment_date : string) (amount_paid : Z)
    (payment_method : string) (db : DB) : DB :=
  set_payments
    (payments db ++
       [Payment.mk (next_id (map Payment.payment_id (payments db)))
          house_no payment_date amount_paid payment_method])
    db.

Definition insert_payment (house_no payment_date : string) (amount_paid : Z)
    (payment_method : string) : statement unit :=
  dml (recorded house_no payment_date amount_paid payment_method).

(** SQL arithmetic: NULL - x is NULL. *)
Definition pay_row (house_no : string) (amount_paid : Z) (t : Tenant.row)
  : Tenant.row :=
  if house_no_is house_no t
  then Tenant.mk (Tenant.house_no t) (Tenant.tenant_name t) (Tenant.phone_number t)
         (Tenant.apartment_id t) (Tenant.move_in_date t)
         (option_map (fun due => due - amount_paid) (Tenant.due_amount t))
  else t.

Definition credited (house_no : string) (amount_paid : Z) (db : DB) : DB :=
  set_tenants (map (pay_row house_no amount_paid) (tenants db)) db.

Definition decrease_due (house_no : string) (amount_paid : Z) : statement unit :=
  dml (credited house_no amount_paid).

(** The value is the message box the method shows. *)
Definition make_payment (house_no payment_date : string) (amount_paid : Z)
    (payment_method : string) : Db dialog :=
  try_except
    (result <- execute (select_tenant house_no) ;;
     match result with
     | Some _ =>
         execute (insert_payment house_no payment_date amount_paid payment_method) ;;
         execute (decrease_due house_no amount_paid) ;;
         commit ;;
         ret (showinfo "Success" "Payment recorded successfully!")
     | None =>
         ret (showwarning "Warning" "No tenant found with that house number.")
     end)
    (fun e =>
       rollback ;;
       ret (showerror "Error" ("Error recording payment: " ++ e))).

(** The submit handler of the payment form: the strategy chosen from the
    menu prints its line, then the payment is stored.  The value is the
    printed output and the message box shown. *)
Definition make_payment_gui_process_payment (self_house_no payment_date : string)
    (amount_paid : Z) (payment_method : string) : Db (list string * dialog) :=
  match strategy_of payment_method with
  | Some strategy =>
      let printed :=
        process_payment strategy self_house_no payment_date amount_paid in
      shown <- make_payment self_house_no payment_date amount_paid payment_method ;;
      ret ([printed], shown)
  | None => ret ([], showerror "Error" "Invalid payment method")
  end.

(** One line of the payment history window: a payment (Payment ID, Date,
    Amount, Method) or the label shown when there is none. *)
Inductive history_line :=
| payment_line (payment_id : Z) (payment_date : string) (amount_paid : Z)
    (payment_method : string)
| no_payment_history.

Definition of_house (house_no : string) (p : Payment.row) : bool :=
  String.eqb (Payment.house_no p) house_no.

Definition select_payments (house_no : string) : statement (list Payment.row) :=
  query (fun db => filter (of_house house_no) (payments db)).

Definition line_of (p : Payment.row) : history_line :=
  payment_line (Payment.payment_id p) (Payment.payment_date p)
    (Payment.amount_paid p) (Payment.payment_method p).

(** The value is the labels put into the window, and the error box if the
    query raised. *)
Definition view_payment_history (house_no : string)
  : Db (list history_line * option dialog) :=
  try_except
    (rows <- execute (select_payments house_no) ;;
     if truthy rows then ret (map line_of rows, None)
     else ret ([no_payment_history], None))
    (fun e =>
       ret ([], Some (showerror "Error" ("Error fetching payment history: " ++ e)))).

(** A text bound to a VARCHAR2 column: Oracle stores the empty string as
    NULL. *)
Definition varchar (text : string) : option string :=
  if String.eqb text "" then None else Some text.

(** The INSERT supplies apartment_id, house_no, issue_description and
    SYSDATE; [status] takes the column default [status_default] of the
    externally created schema. *)
Definition filed (status_default : option string) (now : Z) (apartment_id : Z)
    (house_no issue_description : string) (db : DB) : DB :=
  set_maintenance
    (maintenance db ++
       [Maintenance.mk apartment_id house_no (varchar issue_description) now
          status_default])
    db.

Definition insert_maintenance (status_default : option string) (apartment_id : Z)
    (house_no issue_description : string) : statement unit :=
  fun _ now db =>
    Some (tt, filed status_default now apartment_id house_no issue_description db).

Definition request_maintenance (status_default : option string) (apartment_id : Z)
    (house_no issue_description : string) : Db dialog :=
  try_except
    (result <- execute (select_tenant house_no) ;;
     match result with
     | Some _ =>
         execute (insert_maintenance status_default apartment_id house_no
                    issue_description) ;;
         commit ;;
         ret (showinfo "Success" "Maintenance request submitted successfully!")
     | None =>
         ret (showwarning "Warning" "No tenant found with that house number.")
     end)
    (fun e =>
       rollback ;;
       ret (showerror "Error" ("Error executing query: " ++ e))).
End TenantApp.

(** ** The administrator's window *)

Module AdminApp.
Definition fetch_tenant_details (house_no : string) : Db (option TenantData) :=
  try_except
    (tenant_data <- execute (TenantApp.select_tenant house_no) ;;
     match tenant_data with
     | Some t =>
         ret (Some (mkTenantData (Some house_no) (Some (Tenant.tenant_name t))
                      (Some (Tenant.phone_number t)) (Some (Tenant.apartment_id t))
                      (Some (Tenant.move_in_date t))))
     | None => ret None
     end)
    (fun _ => ret None).

Definition delete_tenant (self_tenant_manager : TenantManager.t) (house_no : string)
  : Db dialog :=
  if String.eqb house_no "" then
    ret (showwarning "Input Error" "Fields must not be empty")
  else
    tenant_data <- fetch_tenant_details house_no ;;
    match tenant_data with
    | None => ret (showwarning "Error" "Tenant not found")
    | Some data =>
        AuditLogger.update "DELETE" data ;;
        try_except_Exception
          (TenantManager.delete_tenant self_tenant_manager
             (mkDeleteCommand TheConnection house_no) ;;
           ret (showinfo "Success" "Tenant deleted successfully"))
          (fun e => ret (showerror "Error" ("Error deleting tenant: " ++ exn_str e)))
    end.

Definition of_pair (apartment_id : Z) (house_no : string) (m : Maintenance.row)
  : bool :=
  (Maintenance.apartment_id m =? apartment_id)
  && String.eqb (Maintenance.house_no m) house_no.

(** SQL [status != 'Completed']: not satisfied by a NULL status. *)
Definition not_completed (m : Maintenance.row) : bool :=
  match Maintenance.status m with
  | Some s => negb (String.eqb s "Completed")
  | None => false
  end.

Definition count {A} (rows : list A) : Z := Z.of_nat (List.length rows).

Definition check_complaint (apartment_id : Z) (house_no : string) : Db bool :=
  try_except
    (n <- execute (query (fun db =>
            count (filter (of_pair apartment_id house_no) (maintenance db)))) ;;
     ret (n >? 0))
    (fun _ => ret false).

Definition incomplete_complaint (apartment_id : Z) (house_no : string) : Db bool :=
  try_except
    (n <- execute (query (fun db =>
            count (filter (fun m => of_pair apartment_id house_no m && not_completed m)
                     (maintenance db)))) ;;
     ret (n >? 0))
    (fun _ => ret false).

Definition complete_row (apartment_id : Z) (house_no : string) (m : Maintenance.row)
  : Maintenance.row :=
  if of_pair apartment_id house_no m
  then Maintenance.mk (Maintenance.apartment_id m) (Maintenance.house_no m)
         (Maintenance.issue_description m) (Maintenance.request_date m)
         (Some "Completed"%string)
  else m.

Definition charge_row (house_no : string) (t : Tenant.row) : Tenant.row :=
  if house_no_is house_no t
  then Tenant.mk (Tenant.house_no t) (Tenant.tenant_name t) (Tenant.phone_number t)
         (Tenant.apartment_id t) (Tenant.move_in_date t)
         (option_map (fun due => due + 100) (Tenant.due_amount t))
  else t.

Definition completed (apartment_id : Z) (house_no : string) (db : DB) : DB :=
  set_maintenance (map (complete_row apartment_id house_no) (maintenance db)) db.

Definition charged (house_no : string) (db : DB) : DB :=
  set_tenants (map (charge_row house_no) (tenants db)) db.

Definition select_issues (apartment_id : Z) (house_no : string)
  : statement (list (option string)) :=
  query (fun db =>
    map Maintenance.issue_description
      (filter (of_pair apartment_id house_no) (maintenance db))).

(** [', '.join(issues_fixed)]: a [None] among the items is a [TypeError]. *)
Definition join_issues (issues_fixed : list (option string)) : Db string :=
  match strings 0 issues_fixed with
  | inl items => ret (join ", " items)
  | inr i =>
      raise (TypeError ("sequence item " ++ str i ++
                        ": expected str instance, NoneType found"))
  end.

Definition completed_message (apartment_id : Z) (house_no : string)
    (joined : string) : string :=
  ("Maintenance Service Completed for Apartment ID: " ++ str apartment_id ++
   ", House No: " ++ house_no ++ ". Issues Fixed: " ++ joined)%string.

(** The return statement after the commit. *)
Definition report (apartment_id : Z) (house_no : string)
    (issues_fixed : list (option string)) : Db (string + string) :=
  joined <- join_issues issues_fixed ;;
  ret (inl (completed_message apartment_id house_no joined)).

Definition already_completed : string := "Maintenance service already completed.".
Definition no_complaint : string := "No complaint registered for this apartment.".

(** The value is [inl message] for a returned message and [inr text] when
    [error_callback text] was called and [None] returned.  The source has a
    second handler, for [cx_Oracle.InterfaceError], with the same body up to
    the text; the environment raises [DatabaseError] only. *)
Definition provide_service (apartment_id : Z) (house_no : string)
  : Db (string + string) :=
  try_except
    (registered <- check_complaint apartment_id house_no ;;
     if registered : bool then
       pending <- incomplete_complaint apartment_id house_no ;;
       if pending : bool then
         issues_fixed <- execute (select_issues apartment_id house_no) ;;
         if truthy issues_fixed then
           execute (dml (completed apartment_id house_no)) ;;
           execute (dml (charged house_no)) ;;
           commit ;;
           report apartment_id house_no issues_fixed
         else ret (inl "No issues found to fix."%string)
       else ret (inl already_completed)
     else ret (inl no_complaint))
    (fun e =>
       rollback ;;
       ret (inr ("Error submitting maintenance request: " ++ e)%string)).

(** SQL [MAX(change_date)]: NULL on an empty table. *)
Definition max_change_date (rows : list Audit_Tenant.row) : option Z :=
  fold_right
    (fun r acc =>
       match acc with
       | None => Some (Audit_Tenant.change_date r)
       | Some m => Some (Z.max (Audit_Tenant.change_date r) m)
       end)
    None rows.

(** One entry of [infos]: Audit ID, House No, Action, Change Date. *)
Definition info := (Z * string * string * Z)%type.

Definition selected (r : Audit_Tenant.row) : info :=
  (Audit_Tenant.audit_id r, Audit_Tenant.house_no r,
   Audit_Tenant.action r, Audit_Tenant.change_date r).

Definition select_latest : statement (list info) :=
  query (fun db =>
    match max_change_date (audit_tenant db) with
    | None => []
    | Some latest =>
        map selected
          (filter (fun r => Audit_Tenant.change_date r =? latest) (audit_tenant db))
    end).

(** The value is [infos] and the warning shown when there is nothing (the
    handler for [cx_Oracle.InterfaceError] returns [[]] as well). *)
Definition display_latest_modifications_gui : Db (list info * option dialog) :=
  try_except
    (rows <- execute select_latest ;;
     if (count rows =? 0)
     then ret ([], Some (showwarning "Warning" "No modifications made yet"))
     else ret (rows, None))
    (fun _ => ret ([], None)).

(** [show_list_apartments]: the value is the rows put into the tree view. *)
Definition show_list_apartments (self_connection : reference)
  : Db (list Apartment.row) :=
  apartments <- ListApartmentsCommand.execute self_connection ;;
  match apartments with
  | Some rows => if truthy rows then ret rows else ret []
  | None => ret []
  end.

(** [show_list_tenants]: the rows put into the tree view and the error box
    shown when the command returned [None]. *)
Definition show_list_tenants (self_connection : reference)
  : Db (list Tenant.row * option dialog) :=
  tenants <- ListTenantsCommand.execute self_connection ;;
  match tenants with
  | None => ret ([], Some (showerror "Error" "Failed to fetch tenant data."))
  | Some rows => ret (rows, None)
  end.

(** One line of the complaints view, in the order of its columns:
    Apartment Name, House No, Issue Description, Request Date, Status,
    Tenant Name, Tenant Phone, Apartment Address; or the line shown when the
    join is empty. *)
Inductive complaint_line :=
| complaint (apartment_name house_no : string) (issue_description : option string)
    (request_date : Z) (status : option string)
    (tenant_name tenant_phone apartment_address : string)
| no_complaints_registered.

Definition complaint_of (m : Maintenance.row) (t : Tenant.row) (a : Apartment.row)
  : complaint_line :=
  complaint (Apartment.apartment_name a) (Maintenance.house_no m)
    (Maintenance.issue_description m) (Maintenance.request_date m)
    (Maintenance.status m) (Tenant.tenant_name t) (Tenant.phone_number t)
    (Apartment.address a).

(** [Maintenance m JOIN Tenant t ON m.house_no = t.house_no
     JOIN Apartment a ON m.apartment_id = a.apartment_id] *)
Definition joined_complaints (db : DB) : list complaint_line :=
  flat_map
    (fun m =>
       flat_map
         (fun t =>
            map (complaint_of m t)
              (filter (fun a => Apartment.apartment_id a =? Maintenance.apartment_id m)
                 (apartments db)))
         (filter (fun t => String.eqb (Maintenance.house_no m) (Tenant.house_no t))
            (tenants db)))
    (maintenance db).

Definition display_complaints_gui : Db (list complaint_line * option dialog) :=
  try_except
    (rows <- execute (query joined_complaints) ;;
     if (count rows =? 0) then ret ([no_complaints_registered], None)
     else ret (rows, None))
    (fun e =>
       ret ([], Some (showerror "Error" ("Error displaying complaints: " ++ e)))).

(** What a form handler does: it shows a message box, or an exception that no
    handler catches leaves it: the ValueError that [int] raises for a text
    that is no number, kept here with that text. *)
Inductive handled :=
| shown (d : dialog)
| ValueError (literal : string).

Section Forms.
(** [datetime.datetime.strptime(text, '%Y-%m-%d').date()], [None] when it
    raises ValueError; and [int(text)], likewise. *)
Variable strptime : string -> option date.
Variable int : string -> option Z.

Definition filled (texts : list string) : bool :=
  forallb (fun text => negb (String.eqb text "")) texts.

Definition add_tenant (self_tenant_manager : TenantManager.t)
    (house_no tenant_name phone_number apartment_id move_in_date_str : string)
  : Db handled :=
  if negb (filled [house_no; tenant_name; phone_number; apartment_id;
                   move_in_date_str])
  then ret (shown (showwarning "Input Error" "All fields must be filled."))
  else
    match strptime move_in_date_str with
    | None =>
        ret (shown (showerror "Date Error"
                      "Move-in date must be in the format YYYY-MM-DD."))
    | Some move_in_date =>
        match int apartment_id with
        | None => ret (ValueError apartment_id)
        | Some apartment =>
            TenantManager.add_tenant self_tenant_manager
              (mkTenantCommand TheConnection house_no tenant_name phone_number
                 apartment move_in_date) ;;
            ret (shown (showinfo "Success" "Tenant added successfully"))
        end
    end.

Definition update_tenant (self_tenant_manager : TenantManager.t)
    (house_no tenant_name phone_number apartment_id move_in_date_str : string)
  : Db handled :=
  if negb (filled [house_no; tenant_name; phone_number; apartment_id;
                   move_in_date_str])
  then ret (shown (showwarning "Input Error" "All fields must be filled."))
  else
    match strptime move_in_date_str with
    | None =>
        ret (shown (showerror "Date Error"
                      "Move-in date must be in the format YYYY-MM-DD."))
    | Some move_in_date =>
        match int apartment_id with
        | None => ret (ValueError apartment_id)
        | Some apartment =>
            TenantManager.update_tenant self_tenant_manager
              (mkTenantCommand TheConnection house_no tenant_name phone_number
                 apartment move_in_date) ;;
            ret (shown (showinfo "Success" "Tenant updated successfully"))
        end
    end.
End Forms.
End AdminApp.

(** ** The login page *)

Module LoginPage.
(** What a login button does: it opens a window, shows a message box, or
    fails on the local variable [tenant_data] that was never assigned. *)
Inductive login :=
| opens_AdminApp
| opens_TenantApp (house_no : string)
| login_failed (d : dialog)
| UnboundLocalError (name : string).

Definition admin_login (username password : string) : login :=
  if String.eqb username "admin" && String.eqb password "admin123"
  then opens_AdminApp
  else login_failed (showerror "Login Failed" "Invalid admin credentials.").

Definition select_house_no (house_no : string) : statement (option string) :=
  query (fun db =>
    fetchone (map Tenant.house_no (filter (house_no_is house_no) (tenants db)))).

(** The query runs only for the shared tenant password; the test of
    [tenant_data] that follows is outside that [if]. *)
Definition tenant_login (house_no password : string) : Db login :=
  try_except
    (tenant_data <-
       (if String.eqb password "tenant123"
        then found <- execute (select_house_no house_no) ;; ret (Some found)
        else ret None) ;;
     match tenant_data with
     | None => ret (UnboundLocalError "tenant_data")
     | Some (Some _) => ret (opens_TenantApp house_no)
     | Some None =>
         ret (login_failed (showerror "Login Failed" "Invalid house number."))
     end)
    (fun _ =>
       ret (login_failed
              (showerror "Login Failed"
                 "An error occurred while checking credentials."))).
End LoginPage.

(** ** The singleton connection and the main program *)

Module DatabaseConnection.
(** A session of [cx_Oracle], identified by what it was opened with.  A
    session object counts as true in a condition. *)
Record session := connect { user : string; password : string; dsn : string }.

(** An instance of the class, with its [connection] attribute. *)
Record instance := mk { connection : session }.

Section Server.
(** The message of the DatabaseError that [cx_Oracle.connect] raises for
    these arguments; [None] when it returns a session. *)
Variable refused : string -> string -> string -> option string.

(** [DatabaseConnection(user, password, dsn)]: the value of the call and the
    class attribute [_instance] after it. *)
Definition new (user password dsn : string) (_instance : option instance)
  : option instance * option instance :=
  match _instance with
  | None =>
      match refused user password dsn with
      | None =>
          let created := mk (connect user password dsn) in
          (Some created, Some created)
      | Some _ => (None, None)
      end
  | Some existing => (Some existing, Some existing)
  end.
End Server.

Definition get_connection (_instance : option instance) : option session :=
  match _instance with
  | Some self => Some (connection self)
  | None => None
  end.
End DatabaseConnection.

(** How the main program ends: in the main loop of the login page, with a
    printed line, or with the exception of a method call on [None]. *)
Inductive started :=
| LoginPage_mainloop (tenant_manager : TenantManager.t)
    (db_connection : DatabaseConnection.session)
| printed (text : string)
| AttributeError (message : string).

Section Main.
(** The environment variables of the process, and the server as above. *)
Variable environ : string -> option string.
Variable refused : string -> string -> string -> option string.

Definition getenv (key default : string) : string :=
  match environ key with
  | Some value => value
  | None => default
  end.

Definition main : started :=
  let DB_USER := getenv "DB_USER" "system" in
  let DB_PASSWORD := getenv "DB_PASSWORD" "bommi" in
  let DB_DSN := getenv "DB_DSN" "localhost:1521" in
  let (db_connection_instance, _instance) :=
    DatabaseConnection.new refused DB_USER DB_PASSWORD DB_DSN None in
  match db_connection_instance with
  | None => AttributeError "'NoneType' object has no attribute 'get_connection'"
  | Some _ =>
      match DatabaseConnection.get_connection _instance with
      | Some db_connection =>
          LoginPage_mainloop
            (TenantManager.register_observer TenantManager.init AuditLoggerObserver)
            db_connection
      | None => printed "Failed to create a valid database connection."
      end
  end.
End Main.

(** * Properties *)

(** ** Running against a server that answers *)

(** The server answers every request. *)
Definition reliable (c : Connection) : Prop :=
  forall n, exists now, env c n = Done now.

(** The server clock seen by the [n]-th request. *)
Definition clock (c : Connection) (n : nat) : Z :=
  match env c n with
  | Done now => now
  | Refused _ => 0
  end.

(** The connection after [k] more requests, with both copies of the store
    equal to [db]. *)
Definition settled (c : Connection) (k : nat) (db : DB) : Connection :=
  mkConnection (schema c) db db (env c) (k + calls c).

(** ** Vocabulary of the statements *)

(** The connection [c] behind a server that refuses request number [n] and
    otherwise answers as the server of [c] does. *)
Definition refusing (c : Connection) (n : nat) (message : string) : Connection :=
  mkConnection (schema c) (committed c) (working c)
    (fun k => if Nat.eqb k n then Refused message else env c k)
    (calls c).

(** The DELETE row that the audit logger writes. *)
Definition delete_entry (id : Z) (h : string) (now : Z) : Audit_Tenant.row :=
  Audit_Tenant.mk id h None None None None "DELETE" now.

(** [after] is [before] with exactly one more Audit_Tenant row, which records
    [action] with the fields of [cmd]. *)
Definition audited_once (action : string) (cmd : TenantCommand)
    (before after : DB) : Prop :=
  exists id now,
    after =
      set_audit_tenant
        (audit_tenant before ++
           [Audit_Tenant.mk id (house_no cmd) (Some (tenant_name cmd))
              (Some (phone_number cmd)) (Some (apartment_id cmd))
              (Some (move_in_date cmd)) action now])
        before.

(** The two writes of one operation reach the store together or not at all:
    afterwards the committed store is the old one (and the transaction holds
    what it held before, or was rolled back), or both copies are the old
    working state with both writes applied. *)
Definition all_or_nothing (both : DB -> DB) (c c' : Connection) : Prop :=
  (committed c' = committed c /\
   (working c' = working c \/ working c' = committed c)) \/
  (committed c' = both (working c) /\ working c' = both (working c)).

(** A store with one more Payment row. *)
Definition with_payment (db : DB) (p : Payment.row) : DB :=
  set_payments (payments db ++ [p]) db.

(** The rows that [check_complaint] and [incomplete_complaint] count. *)
Definition registered_rows (apt : Z) (h : string) (db : DB) : list Maintenance.row :=
  filter (AdminApp.of_pair apt h) (maintenance db).

Definition open_rows (apt : Z) (h : string) (db : DB) : list Maintenance.row :=
  filter (fun m => AdminApp.of_pair apt h m && AdminApp.not_completed m)
    (maintenance db).

(** ** A small store for concrete runs *)

Definition sample_db : DB :=
  mkDB [Apartment.mk 1 "Lake View" "12 Shore Road" 3 900]
       [Tenant.mk "H1" "Asha" "555-0101" 1 (2024, 1, 15) (Some 500)]
       []
       [Maintenance.mk 1 "H1" (Some "Leaking tap"%string) 10 (Some "Pending"%string);
        Maintenance.mk 1 "H1" (Some "Broken window"%string) 11
          (Some "In Progress"%string);
        Maintenance.mk 1 "H1" (Some "Loose tile"%string) 3 (Some "Completed"%string)]
       [].

Definition sample : Connection :=
  mkConnection (mkSchema (Some 0)) sample_db sample_db (fun _ => Done 7) 0%nat.

(** The sample store behind a server that refuses the request number
    [failing] and answers the others. *)
Definition failing_at (failing : nat) : Connection :=
  refusing sample failing "ORA-03113: end-of-file on communication channel".

(** A store without any row. *)
Definition vacant : Connection :=
  mkConnection (mkSchema None) (mkDB [] [] [] [] []) (mkDB [] [] [] [] [])
    (fun _ => Done 5) 0%nat.

Definition new_tenant : TenantCommand :=
  mkTenantCommand TheConnection "H2" "Ben" "555-0102" 1 (2024, 2, 1).

Definition same_house : TenantCommand :=
  mkTenantCommand TheConnection "H1" "Ben" "555-0102" 1 (2024, 2, 1).

(** An audit table with an older entry and two entries of the latest batch. *)
Definition audited : Connection :=
  mkConnection (mkSchema (Some 0))
    (set_audit_tenant
       [Audit_Tenant.mk 1 "H1" (Some "Asha"%string) (Some "555-0101"%string)
          (Some 1) (Some (2024, 1, 15)) "INSERT" 20;
        delete_entry 2 "H3" 31;
        delete_entry 3 "H3" 31]
       sample_db)
    (set_audit_tenant
       [Audit_Tenant.mk 1 "H1" (Some "Asha"%string) (Some "555-0101"%string)
          (Some 1) (Some (2024, 1, 15)) "INSERT" 20;
        delete_entry 2 "H3" 31;
        delete_entry 3 "H3" 31]
       sample_db)
    (fun _ => Done 40) 0%nat.

(** The sample store with a second tenant, H2, who has paid once. *)
Definition two_houses : Connection :=
  let db :=
    set_payments [Payment.mk 1 "H2" "2024-01-20" 100 "Cash"]
      (set_tenants
         (tenants sample_db ++
            [Tenant.mk "H2" "Ben" "555-0102" 1 (2024, 2, 1) (Some 250)])
         sample_db) in
  mkConnection (mkSchema (Some 0)) db db (fun _ => Done 7) 0%nat.

(** ** Operations of the two windows

    The operations that a user of the administrator's or of the tenant's
    window can start, with their inputs; [status_default] is the column
    default of Maintenance.status. *)
Inductive operation :=
| AddTenant (command : TenantCommand)
| UpdateTenant (command : TenantCommand)
| DeleteTenant (house_no : string)
| MakePayment (house_no payment_date : string) (amount_paid : Z)
    (payment_method : string)
| RequestMaintenance (apartment_id : Z) (house_no issue_description : string)
| ProvideService (apartment_id : Z) (house_no : string)
| ViewDueAmount (house_no : string)
| ViewPaymentHistory (house_no : string)
| ListApartments
| ListTenants
| DisplayComplaints
| DisplayLatestModifications.

(** The connection after an operation. *)
Definition run (manager : TenantManager.t) (status_default : option string)
    (o : operation) (c : Connection) : Connection :=
  match o with
  | AddTenant command => snd (TenantManager.add_tenant manager command c)
  | UpdateTenant command => snd (TenantManager.update_tenant manager command c)
  | DeleteTenant house_no => snd (AdminApp.delete_tenant manager house_no c)
  | MakePayment house_no payment_date amount_paid payment_method =>
      snd (TenantApp.make_payment_gui_process_payment house_no payment_date
             amount_paid payment_method c)
  | RequestMaintenance apartment_id house_no issue_description =>
      snd (TenantApp.request_maintenance status_default apartment_id house_no
             issue_description c)
  | ProvideService apartment_id house_no =>
      snd (AdminApp.provide_service apartment_id house_no c)
  | ViewDueAmount house_no => snd (TenantApp.view_due_amount house_no c)
  | ViewPaymentHistory house_no => snd (TenantApp.view_payment_history house_no c)
  | ListApartments => snd (AdminApp.show_list_apartments TheConnection c)
  | ListTenants => snd (AdminApp.show_list_tenants TheConnection c)
  | DisplayComplaints => snd (AdminApp.display_complaints_gui c)
  | DisplayLatestModifications => snd (AdminApp.display_latest_modifications_gui c)
  end.

(** The connection after a sequence of operations. *)
Definition run_all (manager : TenantManager.t) (status_default : option string)
    (os : list operation) (c : Connection) : Connection :=
  fold_left (fun c o => run manager status_default o c) os c.

(** A property of the store that holds of the committed and of the working
    copy. *)
Definition both (P : DB -> Prop) (c : Connection) : Prop :=
  P (committed c) /\ P (working c).

(** A computation keeps [P]: if both copies satisfy it before, both do
    after, whatever the server answers. *)
Definition keeps {A} (P : DB -> Prop) (m : Db A) : Prop :=
  forall c, both P c -> both P (snd (m c)).

(** A statement keeps [P]. *)
Definition sound {A} (P : DB -> Prop) (stmt : statement A) : Prop :=
  forall sch now db a db', stmt sch now db = Some (a, db') -> P db -> P db'.

(** House numbers identify tenants. *)
Definition keyed (db : DB) : Prop := NoDup (map Tenant.house_no (tenants db)).

(** [old] is an initial segment of [rows]. *)
Definition extends {A} (old rows : list A) : Prop := exists rest, rows = old ++ rest.

(** What a Maintenance row is, apart from its status. *)
Definition request (m : Maintenance.row) : Z * string * option string * Z :=
  (Maintenance.apartment_id m, Maintenance.house_no m,
   Maintenance.issue_description m, Maintenance.request_date m).

(** The conditions on the statements that change the store. *)
Record kept (P : DB -> Prop) : Prop := mkKept
  { kept_inserted :
      forall cmd sch db,
        existsb (house_no_is (house_no cmd)) (tenants db) = false ->
        P db -> P (AddTenantCommand.inserted cmd sch db);
    kept_updated : forall cmd db, P db -> P (UpdateTenantCommand.updated cmd db);
    kept_deleted : forall h db, P db -> P (DeleteTenantCommand.deleted h db);
    kept_logged :
      forall now h name phone apt moved action db,
        P db -> P (AuditLogger.logged now h name phone apt moved action db);
    kept_recorded : forall h d a m db, P db -> P (TenantApp.recorded h d a m db);
    kept_credited : forall h a db, P db -> P (TenantApp.credited h a db);
    kept_filed :
      forall sd now apt h descr db, P db -> P (TenantApp.filed sd now apt h descr db);
    kept_completed : forall apt h db, P db -> P (AdminApp.completed apt h db);
    kept_charged : forall h db, P db -> P (AdminApp.charged h db) }.

(** A sequence of operations of both windows. *)
Definition a_day : list operation :=
  [AddTenant same_house; AddTenant new_tenant;
   MakePayment "H1" "2024-02-01" 200 "Cash";
   RequestMaintenance 1 "H2" "No hot water";
   UpdateTenant same_house; ProvideService 1 "H1";
   DeleteTenant "H1"; DisplayLatestModifications].

(** The commit of the audit logger (request 1) is refused. *)
Definition audit_commit_fails : Connection := failing_at 1.

(** Whether [incomplete_complaint] counts a row with this status. *)
Definition billable (status : option string) : bool :=
  match status with
  | Some s => negb (String.eqb s "Completed")
  | None => false
  end.

(** ** Basic facts *)

Lemma reliable_env c n : reliable c -> env c n = Done (clock c n).
Proof.
  intros H. unfold clock. destruct (H n) as [now E]. now rewrite E.
Qed.

(** ** ListApartments *)

(** C9: ListApartmentsCommand.execute returns the Apartment rows (the empty
    list for an empty table) when the query is answered, and Python's None
    when there is no connection or the query raises; None differs from every
    list, the empty one included.  The store is left as it was. *)
Theorem list_apartments_rows_or_none (c : Connection) :
  ListApartmentsCommand.execute NoConnection c = (Returned None, c) /\
  ListApartmentsCommand.execute TheConnection c =
    (Returned match env c (calls c) with
              | Done _ => Some (apartments (working c))
              | Refused _ => None
              end,
     next_call c) /\
  (apartments (working c) = [] ->
   forall now, env c (calls c) = Done now ->
   fst (ListApartmentsCommand.execute TheConnection c) = Returned (Some [])) /\
  (forall rows : list Apartment.row, Some rows <> None).
Proof.
  repeat split.
  - unfold ListApartmentsCommand.execute, try_except, bind, execute,
      ListApartmentsCommand.select_apartments, query.
    destruct (env c (calls c)) as [now|e]; cbn.
    + destruct (apartments (working c)); reflexivity.
    + reflexivity.
  - intros Hempty now Hnow.
    unfold ListApartmentsCommand.execute, try_except, bind, execute,
      ListApartmentsCommand.select_apartments, query.
    rewrite Hnow; cbn. now rewrite Hempty.
  - discriminate.
Qed.

Lemma list_apartments_rows_or_none_witness :
  fst (ListApartmentsCommand.execute TheConnection vacant) = Returned (Some []).
Proof.
  apply (proj1 (proj2 (proj2 (list_apartments_rows_or_none vacant))) eq_refl 5 eq_refl).
Defined.

Example list_apartments_run :
  fst (ListApartmentsCommand.execute TheConnection sample) =
    Returned (Some [Apartment.mk 1 "Lake View" "12 Shore Road" 3 900]).
Proof. reflexivity. Qed.

(** ** Runs of the tenant commands and of the audit logger *)

Arguments clock : simpl never.

Lemma clock_settled c k db n : clock (settled c k db) n = clock c n.
Proof. reflexivity. Qed.

Lemma reliable_settled c k db : reliable c -> reliable (settled c k db).
Proof. intros H n. exact (H n). Qed.

Lemma reliable_next_call c : reliable c -> reliable (next_call c).
Proof. intros H n. exact (H n). Qed.

(** Unfolds one operation and replaces every consultation of the
    environment of [c] by the answer of a reliable server. *)
Ltac run_reliable c H :=
  cbn; repeat (rewrite !(reliable_env c _ H); cbn).

Lemma add_fresh_run c cmd :
  reliable c ->
  connection cmd = TheConnection ->
  existsb (house_no_is (house_no cmd)) (tenants (working c)) = false ->
  AddTenantCommand.execute cmd c =
    (Returned tt, settled c 2 (AddTenantCommand.inserted cmd (schema c) (working c))).
Proof.
  intros H Hc Hfresh.
  unfold AddTenantCommand.execute, try_except, bind, execute, commit,
    AddTenantCommand.insert_tenant.
  rewrite Hc. run_reliable c H. rewrite Hfresh. run_reliable c H. reflexivity.
Qed.

Lemma add_duplicate_run c cmd :
  reliable c ->
  connection cmd = TheConnection ->
  existsb (house_no_is (house_no cmd)) (tenants (working c)) = true ->
  AddTenantCommand.execute cmd c = (Returned tt, settled c 1 (committed c)).
Proof.
  intros H Hc Hdup.
  unfold AddTenantCommand.execute, try_except, bind, execute, commit, rollback,
    AddTenantCommand.insert_tenant.
  rewrite Hc. run_reliable c H. rewrite Hdup. reflexivity.
Qed.

Lemma update_run c cmd :
  reliable c ->
  connection cmd = TheConnection ->
  UpdateTenantCommand.execute cmd c =
    (Returned tt, settled c 2 (UpdateTenantCommand.updated cmd (working c))).
Proof.
  intros H Hc.
  unfold UpdateTenantCommand.execute, try_except, bind, execute, commit,
    UpdateTenantCommand.update_tenant, dml.
  rewrite Hc. run_reliable c H. reflexivity.
Qed.

Lemma delete_run c h :
  reliable c ->
  DeleteTenantCommand.execute (mkDeleteCommand TheConnection h) c =
    (Returned tt, settled c 2 (DeleteTenantCommand.deleted h (working c))).
Proof.
  intros H.
  unfold DeleteTenantCommand.execute, try_except, bind, execute, commit,
    DeleteTenantCommand.delete_tenant, dml.
  run_reliable c H. reflexivity.
Qed.

Lemma log_delete_run c data h :
  reliable c ->
  data_house_no data = Some h ->
  AuditLogger.update "DELETE" data c =
    (Returned tt,
     settled c 2
       (AuditLogger.logged (clock c (calls c)) h None None None None "DELETE"
          (working c))).
Proof.
  intros H Hh.
  unfold AuditLogger.update, try_except, bind, execute, commit, getitem,
    AuditLogger.insert_audit.
  rewrite Hh. run_reliable c H. reflexivity.
Qed.

Lemma log_details_run c event_type cmd :
  reliable c ->
  String.eqb event_type "DELETE" = false ->
  AuditLogger.update event_type (TenantManager.tenant_data cmd) c =
    (Returned tt,
     settled c 2
       (AuditLogger.logged (clock c (calls c)) (house_no cmd)
          (Some (tenant_name cmd)) (Some (phone_number cmd))
          (Some (apartment_id cmd)) (Some (move_in_date cmd)) event_type
          (working c))).
Proof.
  intros H Hev.
  unfold AuditLogger.update, try_except, bind, execute, commit, getitem,
    AuditLogger.insert_audit.
  rewrite Hev. run_reliable c H. reflexivity.
Qed.

Lemma manager_add_fresh_run c cmd :
  reliable c ->
  connection cmd = TheConnection ->
  existsb (house_no_is (house_no cmd)) (tenants (working c)) = false ->
  TenantManager.add_tenant tenant_manager cmd c =
    (Returned tt,
     settled c 4
       (AuditLogger.logged (clock c (2 + calls c)) (house_no cmd)
          (Some (tenant_name cmd)) (Some (phone_number cmd))
          (Some (apartment_id cmd)) (Some (move_in_date cmd)) "INSERT"
          (AddTenantCommand.inserted cmd (schema c) (working c)))).
Proof.
  intros H Hc Hfresh.
  unfold TenantManager.add_tenant, bind.
  rewrite (add_fresh_run c cmd H Hc Hfresh).
  unfold TenantManager.notify_observers; cbn [tenant_manager
    TenantManager.register_observer TenantManager.init TenantManager.observers
    app TenantManager.notify Observer_update].
  unfold bind. rewrite log_details_run by (auto using reliable_settled).
  reflexivity.
Qed.

Lemma manager_add_duplicate_run c cmd :
  reliable c ->
  connection cmd = TheConnection ->
  existsb (house_no_is (house_no cmd)) (tenants (working c)) = true ->
  TenantManager.add_tenant tenant_manager cmd c =
    (Returned tt,
     settled c 3
       (AuditLogger.logged (clock c (1 + calls c)) (house_no cmd)
          (Some (tenant_name cmd)) (Some (phone_number cmd))
          (Some (apartment_id cmd)) (Some (move_in_date cmd)) "INSERT"
          (committed c))).
Proof.
  intros H Hc Hdup.
  unfold TenantManager.add_tenant, bind.
  rewrite (add_duplicate_run c cmd H Hc Hdup).
  unfold TenantManager.notify_observers; cbn [tenant_manager
    TenantManager.register_observer TenantManager.init TenantManager.observers
    app TenantManager.notify Observer_update].
  unfold bind. rewrite log_details_run by (auto using reliable_settled).
  reflexivity.
Qed.

Lemma manager_update_run c cmd :
  reliable c ->
  connection cmd = TheConnection ->
  TenantManager.update_tenant tenant_manager cmd c =
    (Returned tt,
     settled c 4
       (AuditLogger.logged (clock c (2 + calls c)) (house_no cmd)
          (Some (tenant_name cmd)) (Some (phone_number cmd))
          (Some (apartment_id cmd)) (Some (move_in_date cmd)) "UPDATE"
          (UpdateTenantCommand.updated cmd (working c)))).
Proof.
  intros H Hc.
  unfold TenantManager.update_tenant, bind.
  rewrite (update_run c cmd H Hc).
  unfold TenantManager.notify_observers; cbn [tenant_manager
    TenantManager.register_observer TenantManager.init TenantManager.observers
    app TenantManager.notify Observer_update].
  unfold bind. rewrite log_details_run by (auto using reliable_settled).
  reflexivity.
Qed.

Lemma manager_delete_run c h :
  reliable c ->
  TenantManager.delete_tenant tenant_manager (mkDeleteCommand TheConnection h) c =
    (Returned tt,
     settled c 4
       (AuditLogger.logged (clock c (2 + calls c)) h None None None None "DELETE"
          (DeleteTenantCommand.deleted h (working c)))).
Proof.
  intros H.
  unfold TenantManager.delete_tenant, bind.
  rewrite (delete_run c h H).
  unfold TenantManager.notify_observers; cbn [tenant_manager
    TenantManager.register_observer TenantManager.init TenantManager.observers
    app TenantManager.notify Observer_update del_house_no].
  unfold bind.
  rewrite (log_delete_run _ _ h) by (auto using reliable_settled).
  reflexivity.
Qed.

Lemma fetch_existing_run c h :
  reliable c ->
  existsb (house_no_is h) (tenants (working c)) = true ->
  exists data,
    data_house_no data = Some h /\
    AdminApp.fetch_tenant_details h c = (Returned (Some data), next_call c).
Proof.
  intros H Hex.
  unfold AdminApp.fetch_tenant_details, try_except, bind, execute,
    TenantApp.select_tenant, query, fetchone.
  run_reliable c H.
  destruct (filter (house_no_is h) (tenants (working c))) as [|t rest] eqn:Hf.
  - exfalso. apply existsb_exists in Hex. destruct Hex as [t [Hin Ht]].
    assert (Hin' : In t (filter (house_no_is h) (tenants (working c))))
      by (apply filter_In; auto).
    rewrite Hf in Hin'. destruct Hin'.
  - cbn. eexists. split; [|reflexivity]. reflexivity.
Qed.

(** The whole delete handler of the administrator's window, for a tenant
    that exists: the audit logger runs once before the command and once more
    as the registered observer. *)
Lemma admin_delete_run c h :
  reliable c ->
  h <> EmptyString ->
  existsb (house_no_is h) (tenants (working c)) = true ->
  AdminApp.delete_tenant tenant_manager h c =
    (Returned (showinfo "Success" "Tenant deleted successfully"),
     settled c 7
       (AuditLogger.logged (clock c (5 + calls c)) h None None None None "DELETE"
          (DeleteTenantCommand.deleted h
             (AuditLogger.logged (clock c (1 + calls c)) h None None None None
                "DELETE" (working c))))).
Proof.
  intros H Hne Hex.
  unfold AdminApp.delete_tenant.
  destruct (String.eqb_spec h "") as [E|_]; [contradiction|].
  destruct (fetch_existing_run c h H Hex) as [data [Hdata Hfetch]].
  unfold bind at 1. rewrite Hfetch.
  unfold bind at 1.
  rewrite (log_delete_run _ data h) by (auto using reliable_next_call).
  unfold try_except_Exception, bind.
  rewrite manager_delete_run by (auto using reliable_settled).
  reflexivity.
Qed.

(** ** Tenant mutations and their audit rows *)

Lemma deleted_absent h ts :
  existsb (house_no_is h) (filter (fun t => negb (house_no_is h t)) ts) = false.
Proof.
  induction ts as [|t ts IH]; cbn; [reflexivity|].
  destruct (house_no_is h t) eqn:E; cbn; [exact IH|].
  now rewrite E, IH.
Qed.

(** The audit write is a second step with its own handler: when the server
    refuses the INSERT into Audit_Tenant, the logger returns and nothing is
    written. *)
Lemma log_refused_run c event_type cmd message :
  String.eqb event_type "DELETE" = false ->
  env c (calls c) = Refused message ->
  AuditLogger.update event_type (TenantManager.tenant_data cmd) c =
    (Returned tt, next_call c).
Proof.
  intros Hev E.
  unfold AuditLogger.update, try_except, bind, execute, commit, getitem,
    AuditLogger.insert_audit.
  rewrite Hev. cbn. rewrite E. reflexivity.
Qed.

Lemma add_without_audit_run c cmd message :
  reliable c ->
  connection cmd = TheConnection ->
  existsb (house_no_is (house_no cmd)) (tenants (working c)) = false ->
  TenantManager.add_tenant tenant_manager cmd (refusing c (2 + calls c) message) =
    (Returned tt,
     settled (refusing c (2 + calls c) message) 3
       (AddTenantCommand.inserted cmd (schema c) (working c))).
Proof.
  intros H Hc Hfresh.
  pose proof (reliable_env c (calls c) H) as E0.
  pose proof (reliable_env c (S (calls c)) H) as E1.
  unfold TenantManager.add_tenant, bind at 1.
  replace (AddTenantCommand.execute cmd (refusing c (2 + calls c) message))
    with (Returned tt,
          settled (refusing c (2 + calls c) message) 2
            (AddTenantCommand.inserted cmd (schema c) (working c))).
  - unfold TenantManager.notify_observers, tenant_manager. cbn [
      TenantManager.register_observer TenantManager.init TenantManager.observers
      app TenantManager.notify Observer_update].
    unfold bind.
    rewrite (log_refused_run _ "INSERT" cmd message eq_refl)
      by (cbn; now rewrite Nat.eqb_refl).
    reflexivity.
  - unfold AddTenantCommand.execute, try_except, bind, execute, commit,
      AddTenantCommand.insert_tenant.
    assert (N0 : Nat.eqb (calls c) (S (S (calls c))) = false)
      by (apply Nat.eqb_neq; lia).
    assert (N1 : Nat.eqb (calls c) (S (calls c)) = false)
      by (apply Nat.eqb_neq; lia).
    rewrite Hc. cbn. rewrite N0, E0, Hfresh. cbn. rewrite N1, E1. reflexivity.
Qed.

Lemma update_without_audit_run c cmd message :
  reliable c ->
  connection cmd = TheConnection ->
  TenantManager.update_tenant tenant_manager cmd (refusing c (2 + calls c) message) =
    (Returned tt,
     settled (refusing c (2 + calls c) message) 3
       (UpdateTenantCommand.updated cmd (working c))).
Proof.
  intros H Hc.
  pose proof (reliable_env c (calls c) H) as E0.
  pose proof (reliable_env c (S (calls c)) H) as E1.
  unfold TenantManager.update_tenant, bind at 1.
  replace (UpdateTenantCommand.execute cmd (refusing c (2 + calls c) message))
    with (Returned tt,
          settled (refusing c (2 + calls c) message) 2
            (UpdateTenantCommand.updated cmd (working c))).
  - unfold TenantManager.notify_observers, tenant_manager. cbn [
      TenantManager.register_observer TenantManager.init TenantManager.observers
      app TenantManager.notify Observer_update].
    unfold bind.
    rewrite (log_refused_run _ "UPDATE" cmd message eq_refl)
      by (cbn; now rewrite Nat.eqb_refl).
    reflexivity.
  - unfold UpdateTenantCommand.execute, try_except, bind, execute, commit,
      UpdateTenantCommand.update_tenant, dml.
    assert (N0 : Nat.eqb (calls c) (S (S (calls c))) = false)
      by (apply Nat.eqb_neq; lia).
    assert (N1 : Nat.eqb (calls c) (S (calls c)) = false)
      by (apply Nat.eqb_neq; lia).
    rewrite Hc. cbn. rewrite N0, E0. cbn. rewrite N1, E1. reflexivity.
Qed.

(** When the INSERT of the logger is answered and its commit is refused, the
    logger returns without rolling back: the row is in the working copy
    only. *)
Lemma log_uncommitted_run c event_type cmd now message :
  String.eqb event_type "DELETE" = false ->
  env c (calls c) = Done now ->
  env c (S (calls c)) = Refused message ->
  AuditLogger.update event_type (TenantManager.tenant_data cmd) c =
    (Returned tt,
     mkConnection (schema c) (committed c)
       (AuditLogger.logged now (house_no cmd) (Some (tenant_name cmd))
          (Some (phone_number cmd)) (Some (apartment_id cmd))
          (Some (move_in_date cmd)) event_type (working c))
       (env c) (2 + calls c)).
Proof.
  intros Hev E0 E1.
  unfold AuditLogger.update, try_except, bind, execute, commit, getitem,
    AuditLogger.insert_audit.
  rewrite Hev. cbn. rewrite E0. cbn. rewrite E1. reflexivity.
Qed.

Lemma refusing_other c n k message :
  k <> n -> env (refusing c n message) k = env c k.
Proof.
  intros Hk. unfold refusing. cbn [env].
  destruct (Nat.eqb_spec k n); [contradiction|reflexivity].
Qed.

Lemma refusing_there c n message : env (refusing c n message) n = Refused message.
Proof. unfold refusing. cbn [env]. now rewrite Nat.eqb_refl. Qed.

Lemma add_fresh_answered c cmd now0 now1 :
  env c (calls c) = Done now0 ->
  env c (S (calls c)) = Done now1 ->
  connection cmd = TheConnection ->
  existsb (house_no_is (house_no cmd)) (tenants (working c)) = false ->
  AddTenantCommand.execute cmd c =
    (Returned tt, settled c 2 (AddTenantCommand.inserted cmd (schema c) (working c))).
Proof.
  intros E0 E1 Hc Hfresh.
  unfold AddTenantCommand.execute, try_except, bind, execute, commit,
    AddTenantCommand.insert_tenant.
  rewrite Hc. cbn. rewrite E0, Hfresh. cbn. rewrite E1. reflexivity.
Qed.

Lemma update_answered c cmd now0 now1 :
  env c (calls c) = Done now0 ->
  env c (S (calls c)) = Done now1 ->
  connection cmd = TheConnection ->
  UpdateTenantCommand.execute cmd c =
    (Returned tt, settled c 2 (UpdateTenantCommand.updated cmd (working c))).
Proof.
  intros E0 E1 Hc.
  unfold UpdateTenantCommand.execute, try_except, bind, execute, commit,
    UpdateTenantCommand.update_tenant, dml.
  rewrite Hc. cbn. rewrite E0. cbn. rewrite E1. reflexivity.
Qed.

(** The logger of the main program, run after a command that left both
    copies of the store equal to [db], behind a server that answers its
    INSERT and refuses its commit. *)
Lemma notify_uncommitted_run c event_type cmd db message :
  reliable c ->
  String.eqb event_type "DELETE" = false ->
  TenantManager.notify_observers tenant_manager event_type
    (TenantManager.tenant_data cmd)
    (settled (refusing c (3 + calls c) message) 2 db) =
    (Returned tt,
     mkConnection (schema c) db
       (AuditLogger.logged (clock c (2 + calls c)) (house_no cmd)
          (Some (tenant_name cmd)) (Some (phone_number cmd))
          (Some (apartment_id cmd)) (Some (move_in_date cmd)) event_type db)
       (env (refusing c (3 + calls c) message)) (4 + calls c)).
Proof.
  intros H Hev.
  unfold TenantManager.notify_observers, tenant_manager. cbn [
    TenantManager.register_observer TenantManager.init TenantManager.observers
    app TenantManager.notify Observer_update].
  unfold bind.
  rewrite (log_uncommitted_run _ event_type cmd (clock c (2 + calls c)) message Hev).
  - reflexivity.
  - change (env (refusing c (3 + calls c) message) (2 + calls c)%nat =
            Done (clock c (2 + calls c))).
    rewrite refusing_other by lia. apply reliable_env, H.
  - change (env (refusing c (3 + calls c) message) (3 + calls c)%nat =
            Refused message).
    apply refusing_there.
Qed.

Lemma add_uncommitted_audit_run c cmd message :
  reliable c ->
  connection cmd = TheConnection ->
  existsb (house_no_is (house_no cmd)) (tenants (working c)) = false ->
  TenantManager.add_tenant tenant_manager cmd (refusing c (3 + calls c) message) =
    (Returned tt,
     mkConnection (schema c)
       (AddTenantCommand.inserted cmd (schema c) (working c))
       (AuditLogger.logged (clock c (2 + calls c)) (house_no cmd)
          (Some (tenant_name cmd)) (Some (phone_number cmd))
          (Some (apartment_id cmd)) (Some (move_in_date cmd)) "INSERT"
          (AddTenantCommand.inserted cmd (schema c) (working c)))
       (env (refusing c (3 + calls c) message)) (4 + calls c)).
Proof.
  intros H Hc Hfresh.
  unfold TenantManager.add_tenant, bind at 1.
  rewrite (add_fresh_answered (refusing c (3 + calls c) message) cmd
             (clock c (calls c)) (clock c (S (calls c))));
    [ apply (notify_uncommitted_run c "INSERT" cmd _ message H eq_refl)
    | change (env (refusing c (3 + calls c) message) (calls c) =
              Done (clock c (calls c)));
      rewrite refusing_other by lia; apply reliable_env, H
    | change (env (refusing c (3 + calls c) message) (S (calls c)) =
              Done (clock c (S (calls c))));
      rewrite refusing_other by lia; apply reliable_env, H
    | exact Hc
    | exact Hfresh ].
Qed.

Lemma update_uncommitted_audit_run c cmd message :
  reliable c ->
  connection cmd = TheConnection ->
  TenantManager.update_tenant tenant_manager cmd (refusing c (3 + calls c) message) =
    (Returned tt,
     mkConnection (schema c)
       (UpdateTenantCommand.updated cmd (working c))
       (AuditLogger.logged (clock c (2 + calls c)) (house_no cmd)
          (Some (tenant_name cmd)) (Some (phone_number cmd))
          (Some (apartment_id cmd)) (Some (move_in_date cmd)) "UPDATE"
          (UpdateTenantCommand.updated cmd (working c)))
       (env (refusing c (3 + calls c) message)) (4 + calls c)).
Proof.
  intros H Hc.
  unfold TenantManager.update_tenant, bind at 1.
  rewrite (update_answered (refusing c (3 + calls c) message) cmd
             (clock c (calls c)) (clock c (S (calls c))));
    [ apply (notify_uncommitted_run c "UPDATE" cmd _ message H eq_refl)
    | change (env (refusing c (3 + calls c) message) (calls c) =
              Done (clock c (calls c)));
      rewrite refusing_other by lia; apply reliable_env, H
    | change (env (refusing c (3 + calls c) message) (S (calls c)) =
              Done (clock c (S (calls c))));
      rewrite refusing_other by lia; apply reliable_env, H
    | exact Hc ].
Qed.

(** C1 (as the code has it): a successful TenantManager.add_tenant (fresh
    house_no) and a successful TenantManager.update_tenant (any house_no,
    whether or not a row is changed) are each followed by the audit write as
    a second step with its own commit.  When the server answers every
    request, exactly one Audit_Tenant row recording the mutation (action
    INSERT resp. UPDATE, with the command's fields) is appended and
    committed.  The audit write is best-effort: when its INSERT is refused,
    the mutation stays committed and no audit row is written; when its
    INSERT is answered and its commit is refused, the mutation stays
    committed and the one audit row is left in the open transaction, not in
    the committed store. *)
Theorem audit_row_per_mutation (c : Connection) (add upd : TenantCommand)
    (message : string) :
  reliable c ->
  connection add = TheConnection ->
  connection upd = TheConnection ->
  existsb (house_no_is (house_no add)) (tenants (working c)) = false ->
  let stored := AddTenantCommand.inserted add (schema c) (working c) in
  let changed := UpdateTenantCommand.updated upd (working c) in
  let insert_refused := refusing c (2 + calls c) message in
  let commit_refused := refusing c (3 + calls c) message in
  let after (run : TenantManager.t -> TenantCommand -> Db unit)
            (cmd : TenantCommand) (c0 : Connection) :=
    snd (run tenant_manager cmd c0) in
  (audited_once "INSERT" add stored (committed (after TenantManager.add_tenant add c)) /\
   working (after TenantManager.add_tenant add c) =
     committed (after TenantManager.add_tenant add c)) /\
  (audited_once "UPDATE" upd changed
     (committed (after TenantManager.update_tenant upd c)) /\
   working (after TenantManager.update_tenant upd c) =
     committed (after TenantManager.update_tenant upd c)) /\
  (committed (after TenantManager.add_tenant add insert_refused) = stored /\
   working (after TenantManager.add_tenant add insert_refused) = stored) /\
  (committed (after TenantManager.update_tenant upd insert_refused) = changed /\
   working (after TenantManager.update_tenant upd insert_refused) = changed) /\
  (committed (after TenantManager.add_tenant add commit_refused) = stored /\
   audited_once "INSERT" add stored
     (working (after TenantManager.add_tenant add commit_refused))) /\
  (committed (after TenantManager.update_tenant upd commit_refused) = changed /\
   audited_once "UPDATE" upd changed
     (working (after TenantManager.update_tenant upd commit_refused))).
Proof.
  intros H Ha Hu Hfresh. cbv beta zeta.
  rewrite (manager_add_fresh_run c add H Ha Hfresh).
  rewrite (manager_update_run c upd H Hu).
  rewrite (add_without_audit_run c add message H Ha Hfresh).
  rewrite (update_without_audit_run c upd message H Hu).
  rewrite (add_uncommitted_audit_run c add message H Ha Hfresh).
  rewrite (update_uncommitted_audit_run c upd message H Hu).
  cbn [snd settled committed working].
  repeat split; do 2 eexists; reflexivity.
Qed.

Lemma audit_row_per_mutation_witness :
  tenants (UpdateTenantCommand.updated same_house (working sample)) =
    [Tenant.mk "H1" "Ben" "555-0102" 1 (2024, 2, 1) (Some 500)] /\
  let stored := AddTenantCommand.inserted new_tenant (schema sample) (working sample) in
  let changed := UpdateTenantCommand.updated same_house (working sample) in
  let insert_refused := refusing sample (2 + calls sample) "ORA-01653" in
  let commit_refused := refusing sample (3 + calls sample) "ORA-01653" in
  let after (run : TenantManager.t -> TenantCommand -> Db unit)
            (cmd : TenantCommand) (c0 : Connection) :=
    snd (run tenant_manager cmd c0) in
  (audited_once "INSERT" new_tenant stored
     (committed (after TenantManager.add_tenant new_tenant sample)) /\
   working (after TenantManager.add_tenant new_tenant sample) =
     committed (after TenantManager.add_tenant new_tenant sample)) /\
  (audited_once "UPDATE" same_house changed
     (committed (after TenantManager.update_tenant same_house sample)) /\
   working (after TenantManager.update_tenant same_house sample) =
     committed (after TenantManager.update_tenant same_house sample)) /\
  (committed (after TenantManager.add_tenant new_tenant insert_refused) = stored /\
   working (after TenantManager.add_tenant new_tenant insert_refused) = stored) /\
  (committed (after TenantManager.update_tenant same_house insert_refused) = changed /\
   working (after TenantManager.update_tenant same_house insert_refused) = changed) /\
  (committed (after TenantManager.add_tenant new_tenant commit_refused) = stored /\
   audited_once "INSERT" new_tenant stored
     (working (after TenantManager.add_tenant new_tenant commit_refused))) /\
  (committed (after TenantManager.update_tenant same_house commit_refused) = changed /\
   audited_once "UPDATE" same_house changed
     (working (after TenantManager.update_tenant same_house commit_refused))).
Proof.
  split; [reflexivity|].
  apply (audit_row_per_mutation sample new_tenant same_house "ORA-01653");
    [intros n; exists 7; reflexivity | reflexivity | reflexivity | reflexivity].
Defined.

(** The INSERT into Tenant is answered and committed, the INSERT into
    Audit_Tenant is refused: tenant H2 is stored, and Audit_Tenant has not
    gained a row. *)
Lemma audit_row_can_be_missing :
  let c' := snd (TenantManager.add_tenant tenant_manager new_tenant (failing_at 2)) in
  tenants (committed c') =
    tenants (committed (failing_at 2)) ++
      [Tenant.mk "H2" "Ben" "555-0102" 1 (2024, 2, 1) (Some 0)] /\
  ~ (exists r,
        audit_tenant (committed c') = audit_tenant (committed (failing_at 2)) ++ [r]) /\
  ~ (exists r,
        audit_tenant (working c') = audit_tenant (working (failing_at 2)) ++ [r]).
Proof.
  cbv zeta. repeat split; intros [r Hr]; discriminate Hr.
Qed.

(** C2: TenantManager.add_tenant with a house_no that is already in the
    Tenant table (and a server that answers) leaves the Tenant table as
    committed, as claimed; but the command does not tell the manager that it
    failed, the audit logger is notified all the same, and one INSERT row
    with the command's fields is appended to Audit_Tenant, where the claim
    expects none. *)
Theorem add_duplicate_is_logged (c : Connection) (cmd : TenantCommand) :
  reliable c ->
  connection cmd = TheConnection ->
  existsb (house_no_is (house_no cmd)) (tenants (working c)) = true ->
  let c' := snd (TenantManager.add_tenant tenant_manager cmd c) in
  tenants (committed c') = tenants (committed c) /\
  working c' = committed c' /\
  exists id now,
    audit_tenant (committed c') =
      audit_tenant (committed c) ++
        [Audit_Tenant.mk id (house_no cmd) (Some (tenant_name cmd))
           (Some (phone_number cmd)) (Some (apartment_id cmd))
           (Some (move_in_date cmd)) "INSERT" now].
Proof.
  intros H Hc Hdup.
  rewrite (manager_add_duplicate_run c cmd H Hc Hdup). cbn.
  repeat split. do 2 eexists. reflexivity.
Qed.

Lemma add_duplicate_is_logged_witness :
  existsb (house_no_is (house_no same_house)) (tenants (working sample)) = true /\
  let c' := snd (TenantManager.add_tenant tenant_manager same_house sample) in
  tenants (committed c') = tenants (committed sample) /\
  working c' = committed c' /\
  exists id now,
    audit_tenant (committed c') =
      audit_tenant (committed sample) ++
        [Audit_Tenant.mk id "H1" (Some "Ben"%string) (Some "555-0102"%string)
           (Some 1) (Some (2024, 2, 1)) "INSERT" now].
Proof.
  split; [reflexivity|].
  apply (add_duplicate_is_logged sample same_house);
    [intros n; exists 7; reflexivity | reflexivity | reflexivity].
Defined.

(** C3: AdminApp.delete_tenant for an existing tenant H removes the Tenant
    row of H and commits; Audit_Tenant gains two rows (not one), each with
    action DELETE, house_no H and NULL tenant_name, phone_number,
    apartment_id and move_in_date. *)
Theorem delete_existing_logs_twice (c : Connection) (h : string) :
  reliable c ->
  h <> EmptyString ->
  existsb (house_no_is h) (tenants (working c)) = true ->
  let c' := snd (AdminApp.delete_tenant tenant_manager h c) in
  existsb (house_no_is h) (tenants (working c')) = false /\
  committed c' = working c' /\
  exists id1 now1 id2 now2,
    audit_tenant (working c') =
      audit_tenant (working c) ++ [delete_entry id1 h now1; delete_entry id2 h now2].
Proof.
  intros H Hne Hex.
  rewrite (admin_delete_run c h H Hne Hex). cbn.
  repeat split.
  - apply deleted_absent.
  - rewrite <- app_assoc. cbn. do 4 eexists. reflexivity.
Qed.

Lemma delete_existing_logs_twice_witness :
  existsb (house_no_is "H1") (tenants (working sample)) = true /\
  let c' := snd (AdminApp.delete_tenant tenant_manager "H1" sample) in
  existsb (house_no_is "H1") (tenants (working c')) = false /\
  committed c' = working c' /\
  exists id1 now1 id2 now2,
    audit_tenant (working c') =
      audit_tenant (working sample) ++
        [delete_entry id1 "H1" now1; delete_entry id2 "H1" now2].
Proof.
  split; [reflexivity|].
  apply (delete_existing_logs_twice sample "H1");
    [intros n; exists 7; reflexivity | discriminate | reflexivity].
Defined.

(** The INSERT of H1 is refused as a duplicate; the Tenant table is unchanged
    and Audit_Tenant is not. *)
Lemma add_duplicate_adds_audit_row :
  let c' := snd (TenantManager.add_tenant tenant_manager same_house sample) in
  existsb (house_no_is (house_no same_house)) (tenants (working sample)) = true /\
  ~ (tenants (committed c') = tenants (committed sample) /\
     audit_tenant (committed c') = audit_tenant (committed sample)).
Proof.
  cbv zeta. split; [reflexivity|]. intros [_ Haudit]. discriminate Haudit.
Qed.

(** The same run, evaluated: one tenant, no audit row before; no tenant and
    two DELETE rows after. *)
Example delete_H1_run :
  let c' := snd (AdminApp.delete_tenant tenant_manager "H1" sample) in
  tenants (committed c') = [] /\
  audit_tenant (committed c') = [delete_entry 1 "H1" 7; delete_entry 2 "H1" 7].
Proof. split; reflexivity. Qed.

Example add_H1_again_run :
  let c' := snd (TenantManager.add_tenant tenant_manager same_house sample) in
  tenants (committed c') = tenants (committed sample) /\
  audit_tenant (committed c') =
    [Audit_Tenant.mk 1 "H1" (Some "Ben"%string) (Some "555-0102"%string)
       (Some 1) (Some (2024, 2, 1)) "INSERT" 7].
Proof. split; reflexivity. Qed.

(** ** Payments *)

(** Destructs, one after the other, the answers that the environment of [c]
    gives to the requests of an unfolded operation. *)
Ltac split_env c :=
  repeat match goal with
         | |- context [env c ?n] =>
             let E := fresh "Eenv" in destruct (env c n) eqn:E; cbn
         end.

Lemma pay_row_house h a t : house_no_is h (TenantApp.pay_row h a t) = house_no_is h t.
Proof.
  unfold TenantApp.pay_row. destruct (house_no_is h t) eqn:E; [|exact E].
  unfold house_no_is in *. exact E.
Qed.

Lemma due_amount_of_credited h a db :
  TenantApp.due_amount_of h (TenantApp.credited h a db) =
    option_map (option_map (fun due => due - a)) (TenantApp.due_amount_of h db).
Proof.
  unfold TenantApp.due_amount_of, TenantApp.credited, fetchone. cbn.
  induction (tenants db) as [|t ts IH]; cbn; [reflexivity|].
  rewrite pay_row_house.
  destruct (house_no_is h t) eqn:E; cbn; [|exact IH].
  unfold TenantApp.pay_row. now rewrite E.
Qed.

Lemma make_payment_found_run c h d a m :
  reliable c ->
  TenantApp.due_amount_of h (working c) <> None ->
  TenantApp.make_payment h d a m c =
    (Returned (showinfo "Success" "Payment recorded successfully!"),
     settled c 4 (TenantApp.credited h a (TenantApp.recorded h d a m (working c)))).
Proof.
  intros H Hfound.
  unfold TenantApp.make_payment, try_except, bind, execute, commit,
    TenantApp.select_tenant, TenantApp.insert_payment, TenantApp.decrease_due,
    query, dml.
  unfold TenantApp.due_amount_of in Hfound.
  run_reliable c H.
  destruct (fetchone (filter (house_no_is h) (tenants (working c)))) as [t|];
    [|now contradiction Hfound].
  run_reliable c H. reflexivity.
Qed.

Lemma make_payment_unknown c h d a m :
  TenantApp.due_amount_of h (working c) = None ->
  let c' := snd (TenantApp.make_payment h d a m c) in
  committed c' = committed c /\
  (working c' = working c \/ working c' = committed c).
Proof.
  intros Hnone.
  unfold TenantApp.make_payment, try_except, bind, execute, commit, rollback,
    TenantApp.select_tenant, query.
  unfold TenantApp.due_amount_of in Hnone.
  destruct (fetchone (filter (house_no_is h) (tenants (working c)))) as [t|] eqn:Hf;
    [discriminate|].
  cbn. split_env c; rewrite ?Hf; cbn; auto.
Qed.

Lemma make_payment_atomic c h d a m :
  all_or_nothing
    (fun db => TenantApp.credited h a (TenantApp.recorded h d a m db))
    c (snd (TenantApp.make_payment h d a m c)).
Proof.
  unfold all_or_nothing, TenantApp.make_payment, try_except, bind, execute,
    commit, rollback, TenantApp.select_tenant, TenantApp.insert_payment,
    TenantApp.decrease_due, query, dml.
  cbn.
  destruct (env c (calls c)) eqn:E0; cbn; [|auto].
  destruct (fetchone (filter (house_no_is h) (tenants (working c)))); cbn; [|auto].
  destruct (env c (S (calls c))) eqn:E1; cbn; [|auto].
  destruct (env c (S (S (calls c)))) eqn:E2; cbn; [|auto].
  destruct (env c (S (S (S (calls c))))) eqn:E3; cbn; auto.
Qed.

(** C4: TenantApp.make_payment for house H and amount A.  When the Tenant
    row of H has due_amount D and the server answers, afterwards the
    due_amount of H is D - A, the Payment table is the old one followed by
    exactly one new row for H with amount A, and this is committed.  When no
    Tenant row has house_no H, nothing is written, whatever the server
    answers: the committed store is unchanged and the transaction holds what
    it held before (or has been rolled back). *)
Theorem make_payment_effect (c : Connection) (h d : string) (a : Z) (m : string) :
  let c' := snd (TenantApp.make_payment h d a m c) in
  (forall D,
      reliable c ->
      TenantApp.due_amount_of h (working c) = Some (Some D) ->
      TenantApp.due_amount_of h (working c') = Some (Some (D - a)) /\
      committed c' = working c' /\
      exists id,
        payments (working c') = payments (working c) ++ [Payment.mk id h d a m]) /\
  (TenantApp.due_amount_of h (working c) = None ->
   committed c' = committed c /\
   (working c' = working c \/ working c' = committed c)).
Proof.
  cbv zeta. split.
  - intros D H HD.
    rewrite (make_payment_found_run c h d a m H) by (rewrite HD; discriminate).
    cbn [snd settled working committed]. repeat split.
    + rewrite due_amount_of_credited.
      replace (TenantApp.due_amount_of h (TenantApp.recorded h d a m (working c)))
        with (TenantApp.due_amount_of h (working c)) by reflexivity.
      now rewrite HD.
    + eexists. reflexivity.
  - apply make_payment_unknown.
Qed.

Lemma make_payment_effect_witness :
  (let c' := snd (TenantApp.make_payment "H1" "2024-02-01" 200 "Cash" sample) in
   TenantApp.due_amount_of "H1" (working c') = Some (Some (500 - 200)) /\
   committed c' = working c' /\
   exists id,
     payments (working c') =
       payments (working sample) ++ [Payment.mk id "H1" "2024-02-01" 200 "Cash"]) /\
  (let c' := snd (TenantApp.make_payment "H9" "2024-02-01" 200 "Cash" sample) in
   committed c' = committed sample /\
   (working c' = working sample \/ working c' = committed sample)).
Proof.
  split.
  - apply (proj1 (make_payment_effect sample "H1" "2024-02-01" 200 "Cash") 500);
      [intros n; exists 7; reflexivity | reflexivity].
  - apply (proj2 (make_payment_effect sample "H9" "2024-02-01" 200 "Cash"));
      reflexivity.
Defined.

(** ** Payment strategies *)

(** C8: submitting the same payment (house_no, date, amount) from the same
    connection state with two entries of the payment method menu leaves the
    same connection state, or two states that are one and the same store
    extended by one Payment row, the two rows being equal in every field but
    payment_method. *)
Theorem strategy_only_sets_method (c : Connection) (h d : string) (a : Z)
    (m1 m2 : string) (s1 s2 : PaymentStrategy) :
  strategy_of m1 = Some s1 ->
  strategy_of m2 = Some s2 ->
  let c1 := snd (TenantApp.make_payment_gui_process_payment h d a m1 c) in
  let c2 := snd (TenantApp.make_payment_gui_process_payment h d a m2 c) in
  c1 = c2 \/
  exists db id,
    committed c1 = with_payment db (Payment.mk id h d a m1) /\
    working c1 = with_payment db (Payment.mk id h d a m1) /\
    committed c2 = with_payment db (Payment.mk id h d a m2) /\
    working c2 = with_payment db (Payment.mk id h d a m2).
Proof.
  intros Hs1 Hs2.
  unfold TenantApp.make_payment_gui_process_payment. rewrite Hs1, Hs2.
  unfold TenantApp.make_payment, try_except, bind, execute, commit, rollback,
    TenantApp.select_tenant, TenantApp.insert_payment, TenantApp.decrease_due,
    query, dml, ret.
  cbn.
  destruct (env c (calls c)) eqn:E0; cbn; [|auto].
  destruct (fetchone (filter (house_no_is h) (tenants (working c)))); cbn; [|auto].
  destruct (env c (S (calls c))) eqn:E1; cbn; [|auto].
  destruct (env c (S (S (calls c)))) eqn:E2; cbn; [|auto].
  destruct (env c (S (S (S (calls c))))) eqn:E3; cbn; [|auto].
  right. exists (TenantApp.credited h a (working c)). eexists.
  repeat split; reflexivity.
Qed.

Lemma strategy_only_sets_method_witness :
  let c1 := snd (TenantApp.make_payment_gui_process_payment
                   "H1" "2024-02-01" 200 "Cash" sample) in
  let c2 := snd (TenantApp.make_payment_gui_process_payment
                   "H1" "2024-02-01" 200 "Bank Transfer" sample) in
  c1 = c2 \/
  exists db id,
    committed c1 = with_payment db (Payment.mk id "H1" "2024-02-01" 200 "Cash") /\
    working c1 = with_payment db (Payment.mk id "H1" "2024-02-01" 200 "Cash") /\
    committed c2 = with_payment db (Payment.mk id "H1" "2024-02-01" 200 "Bank Transfer") /\
    working c2 = with_payment db (Payment.mk id "H1" "2024-02-01" 200 "Bank Transfer").
Proof.
  apply (strategy_only_sets_method sample "H1" "2024-02-01" 200 "Cash" "Bank Transfer"
           CashPayment BankTransferPayment); reflexivity.
Defined.

(** The menu offers exactly the entries that select a strategy. *)
Lemma menu_entries_have_strategies (m : string) :
  In m payment_method_menu <-> strategy_of m <> None.
Proof.
  unfold payment_method_menu, strategy_of. split.
  - intros [<-|[<-|[<-|[]]]]; discriminate.
  - destruct (String.eqb_spec m "Credit Card") as [->|_]; [cbn; auto|].
    destruct (String.eqb_spec m "Cash") as [->|_]; [cbn; auto|].
    destruct (String.eqb_spec m "Bank Transfer") as [->|_]; [cbn; auto|].
    congruence.
Qed.

(** The strategies differ in what they print. *)
Example strategies_print :
  fst (TenantApp.make_payment_gui_process_payment "H1" "2024-02-01" 200 "Cash" sample) =
    Returned (["Processing cash payment of 200 for house H1 on 2024-02-01."%string],
              showinfo "Success" "Payment recorded successfully!").
Proof. reflexivity. Qed.

(** ** Maintenance service *)

Lemma count_positive {A} (rows : list A) : (AdminApp.count rows >? 0) = truthy rows.
Proof. destruct rows; reflexivity. Qed.

Arguments AdminApp.count : simpl never.
Arguments Z.gtb : simpl never.

(** The return statement after the commit yields the message or raises
    [TypeError]; it does not touch the connection. *)
Lemma report_cases apt h issues c :
  AdminApp.report apt h issues c =
    match strings 0 issues with
    | inl items =>
        (Returned (inl (AdminApp.completed_message apt h (join ", " items))), c)
    | inr i =>
        (Raised (TypeError ("sequence item " ++ str i ++
                            ": expected str instance, NoneType found")), c)
    end.
Proof.
  unfold AdminApp.report, AdminApp.join_issues, bind.
  destruct (strings 0 issues); reflexivity.
Qed.

Lemma report_state apt h issues c : snd (AdminApp.report apt h issues c) = c.
Proof. rewrite report_cases. destruct (strings 0 issues); reflexivity. Qed.

Arguments AdminApp.report : simpl never.

Lemma provide_service_atomic c apt h :
  all_or_nothing
    (fun db => AdminApp.charged h (AdminApp.completed apt h db))
    c (snd (AdminApp.provide_service apt h c)).
Proof.
  unfold all_or_nothing, AdminApp.provide_service, AdminApp.check_complaint,
    AdminApp.incomplete_complaint, AdminApp.select_issues, try_except, bind,
    execute, commit, rollback, query, dml.
  cbn.
  destruct (env c (calls c)) eqn:E0; cbn; rewrite ?count_positive; [|auto].
  destruct (truthy (filter (AdminApp.of_pair apt h) (maintenance (working c))));
    cbn; [|auto].
  destruct (env c (S (calls c))) eqn:E1; cbn; rewrite ?count_positive; [|auto].
  destruct (truthy (filter _ (maintenance (working c)))); cbn; [|auto].
  destruct (env c (S (S (calls c)))) eqn:E2; cbn; [|auto].
  destruct (truthy (map _ _)); cbn; [|auto].
  destruct (env c (S (S (S (calls c))))) eqn:E3; cbn; [|auto].
  destruct (env c (S (S (S (S (calls c)))))) eqn:E4; cbn; [|auto].
  destruct (env c (S (S (S (S (S (calls c))))))) eqn:E5; cbn; [|auto].
  rewrite report_cases. destruct (strings 0 _); cbn; auto.
Qed.

(** C5: TenantApp.make_payment and AdminApp.provide_service are all or
    nothing, whatever the server answers to each request (any statement and
    the commit may raise DatabaseError): afterwards either the committed
    store is the one from before and the transaction holds what it held
    before or has been rolled back, or both writes (Payment row and
    due_amount decrease; status update and due_amount increase) are applied
    and committed. *)
Theorem two_writes_all_or_nothing (c : Connection) :
  (forall h d a m,
      all_or_nothing
        (fun db => TenantApp.credited h a (TenantApp.recorded h d a m db))
        c (snd (TenantApp.make_payment h d a m c))) /\
  (forall apt h,
      all_or_nothing
        (fun db => AdminApp.charged h (AdminApp.completed apt h db))
        c (snd (AdminApp.provide_service apt h c))).
Proof.
  split; intros.
  - apply make_payment_atomic.
  - apply provide_service_atomic.
Qed.

(** The due_amount update of a payment fails after the Payment row was
    inserted: the handler rolls the row back. *)
Example payment_rolled_back_run :
  let run := TenantApp.make_payment "H1" "2024-02-01" 200 "Cash" (failing_at 2) in
  fst run =
    Returned (showerror "Error"
                "Error recording payment: ORA-03113: end-of-file on communication channel") /\
  committed (snd run) = sample_db /\ working (snd run) = sample_db.
Proof. repeat split. Qed.

(** The commit of a maintenance service fails after both updates: the
    handler rolls both back. *)
Example service_rolled_back_run :
  let run := AdminApp.provide_service 1 "H1" (failing_at 5) in
  fst run =
    Returned (inr ("Error submitting maintenance request: " ++
                   "ORA-03113: end-of-file on communication channel")%string) /\
  committed (snd run) = sample_db /\ working (snd run) = sample_db.
Proof. repeat split. Qed.

Lemma of_pair_complete_row apt h m :
  AdminApp.of_pair apt h (AdminApp.complete_row apt h m) = AdminApp.of_pair apt h m.
Proof.
  unfold AdminApp.complete_row.
  destruct (AdminApp.of_pair apt h m) eqn:E; [|exact E]. exact E.
Qed.

Lemma completed_status apt h db m :
  In m (maintenance (AdminApp.completed apt h db)) ->
  AdminApp.of_pair apt h m = true ->
  Maintenance.status m = Some "Completed"%string.
Proof.
  unfold AdminApp.completed. cbn. intros Hin Hpair.
  apply in_map_iff in Hin. destruct Hin as [m0 [Hm0 _]]. subst m.
  rewrite of_pair_complete_row in Hpair.
  unfold AdminApp.complete_row. now rewrite Hpair.
Qed.

Lemma completed_none_open apt h db :
  open_rows apt h (AdminApp.completed apt h db) = [].
Proof.
  unfold open_rows, AdminApp.completed. cbn.
  induction (maintenance db) as [|m ms IH]; cbn; [reflexivity|].
  rewrite of_pair_complete_row.
  destruct (AdminApp.of_pair apt h m) eqn:E; cbn; [|exact IH].
  unfold AdminApp.complete_row at 1. rewrite E. cbn. exact IH.
Qed.


Lemma open_is_registered apt h db :
  truthy (open_rows apt h db) = true -> truthy (registered_rows apt h db) = true.
Proof.
  unfold open_rows, registered_rows.
  induction (maintenance db) as [|m ms IH]; cbn; [discriminate|].
  destruct (AdminApp.of_pair apt h m); cbn; [reflexivity|exact IH].
Qed.

Lemma truthy_map {A B} (f : A -> B) (rows : list A) : truthy (map f rows) = truthy rows.
Proof. destruct rows; reflexivity. Qed.

Lemma charge_row_house h t : house_no_is h (AdminApp.charge_row h t) = house_no_is h t.
Proof.
  unfold AdminApp.charge_row. destruct (house_no_is h t) eqn:E; exact E.
Qed.

Lemma due_amount_of_charged h db :
  TenantApp.due_amount_of h (AdminApp.charged h db) =
    option_map (option_map (fun due => due + 100)) (TenantApp.due_amount_of h db).
Proof.
  unfold TenantApp.due_amount_of, AdminApp.charged, fetchone. cbn.
  induction (tenants db) as [|t ts IH]; cbn; [reflexivity|].
  rewrite charge_row_house.
  destruct (house_no_is h t) eqn:E; cbn; [|exact IH].
  unfold AdminApp.charge_row. now rewrite E.
Qed.

Lemma provide_service_open_run c apt h :
  reliable c ->
  truthy (open_rows apt h (working c)) = true ->
  AdminApp.provide_service apt h c =
    AdminApp.report apt h
      (map Maintenance.issue_description (registered_rows apt h (working c)))
      (settled c 6 (AdminApp.charged h (AdminApp.completed apt h (working c)))).
Proof.
  intros H Hopen. pose proof (open_is_registered _ _ _ Hopen) as Hreg.
  unfold open_rows in Hopen. unfold registered_rows in *.
  unfold AdminApp.provide_service, AdminApp.check_complaint,
    AdminApp.incomplete_complaint, AdminApp.select_issues, try_except, bind,
    execute, commit, query, dml.
  run_reliable c H. rewrite count_positive, Hreg.
  run_reliable c H. rewrite count_positive, Hopen.
  run_reliable c H. rewrite truthy_map, Hreg.
  run_reliable c H. rewrite !report_cases.
  destruct (strings 0 _); reflexivity.
Qed.

Lemma provide_service_done_run c apt h :
  reliable c ->
  truthy (registered_rows apt h (working c)) = true ->
  truthy (open_rows apt h (working c)) = false ->
  AdminApp.provide_service apt h c =
    (Returned (inl AdminApp.already_completed), next_call (next_call c)).
Proof.
  intros H Hreg Hopen. unfold open_rows in Hopen. unfold registered_rows in *.
  unfold AdminApp.provide_service, AdminApp.check_complaint,
    AdminApp.incomplete_complaint, try_except, bind, execute, query.
  run_reliable c H. rewrite count_positive, Hreg.
  run_reliable c H. rewrite count_positive, Hopen.
  reflexivity.
Qed.

(** The messages of [provide_service] are pairwise different. *)
Lemma completed_message_distinct apt h issues :
  AdminApp.completed_message apt h issues <> AdminApp.already_completed /\
  AdminApp.completed_message apt h issues <> AdminApp.no_complaint /\
  AdminApp.completed_message apt h issues <> "No issues found to fix."%string.
Proof.
  unfold AdminApp.completed_message, AdminApp.already_completed,
    AdminApp.no_complaint.
  cbn. repeat split; discriminate.
Qed.

Lemma provide_service_completed_inv c apt h issues c' :
  AdminApp.provide_service apt h c =
    (Returned (inl (AdminApp.completed_message apt h issues)), c') ->
  c' = settled c 6 (AdminApp.charged h (AdminApp.completed apt h (working c))).
Proof.
  destruct (completed_message_distinct apt h issues) as [Ha [Hn Hi]].
  unfold AdminApp.provide_service, AdminApp.check_complaint,
    AdminApp.incomplete_complaint, AdminApp.select_issues, try_except, bind,
    execute, commit, rollback, query, dml.
  cbn.
  assert (Hno : forall (msg : string) (x y : Connection),
             msg <> AdminApp.completed_message apt h issues ->
             (Returned (inl msg : string + string), x) =
               (Returned (inl (AdminApp.completed_message apt h issues)), y) ->
             y = settled c 6
                   (AdminApp.charged h (AdminApp.completed apt h (working c)))).
  { intros msg x y Hneq Heq. injection Heq as Hmsg _. contradiction. }
  destruct (env c (calls c)) eqn:E0; cbn; rewrite ?count_positive;
    [|apply Hno; congruence].
  destruct (truthy (filter (AdminApp.of_pair apt h) (maintenance (working c))));
    cbn; [|apply Hno; congruence].
  destruct (env c (S (calls c))) eqn:E1; cbn; rewrite ?count_positive;
    [|apply Hno; congruence].
  destruct (truthy (filter _ (maintenance (working c)))); cbn;
    [|apply Hno; congruence].
  destruct (env c (S (S (calls c)))) eqn:E2; cbn; [|discriminate].
  destruct (truthy (map _ _)); cbn; [|apply Hno; congruence].
  destruct (env c (S (S (S (calls c))))) eqn:E3; cbn; [|discriminate].
  destruct (env c (S (S (S (S (calls c)))))) eqn:E4; cbn; [|discriminate].
  destruct (env c (S (S (S (S (S (calls c))))))) eqn:E5; cbn; [|discriminate].
  rewrite report_cases. destruct (strings 0 _); cbn; [|discriminate].
  intros Heq. injection Heq as _ Hc. now subst c'.
Qed.

(** The only exception that leaves [provide_service] is the [TypeError] of
    the return statement, and then the service has been committed. *)
Lemma provide_service_raised_inv c apt h e :
  fst (AdminApp.provide_service apt h c) = Raised e ->
  (exists message, e = TypeError message) /\
  snd (AdminApp.provide_service apt h c) =
    settled c 6 (AdminApp.charged h (AdminApp.completed apt h (working c))).
Proof.
  unfold AdminApp.provide_service, AdminApp.check_complaint,
    AdminApp.incomplete_complaint, AdminApp.select_issues, try_except, bind,
    execute, commit, rollback, query, dml.
  cbn.
  destruct (env c (calls c)) eqn:E0; cbn; rewrite ?count_positive; [|discriminate].
  destruct (truthy (filter (AdminApp.of_pair apt h) (maintenance (working c))));
    cbn; [|discriminate].
  destruct (env c (S (calls c))) eqn:E1; cbn; rewrite ?count_positive;
    [|discriminate].
  destruct (truthy (filter _ (maintenance (working c)))); cbn; [|discriminate].
  destruct (env c (S (S (calls c)))) eqn:E2; cbn; [|discriminate].
  destruct (truthy (map _ _)); cbn; [|discriminate].
  destruct (env c (S (S (S (calls c))))) eqn:E3; cbn; [|discriminate].
  destruct (env c (S (S (S (S (calls c)))))) eqn:E4; cbn; [|discriminate].
  destruct (env c (S (S (S (S (S (calls c))))))) eqn:E5; cbn; [|discriminate].
  rewrite report_cases. destruct (strings 0 _); cbn; [discriminate|].
  intros Heq. injection Heq as <-. split; [eauto|reflexivity].
Qed.

Lemma incomplete_after_completed c apt h db :
  working c = AdminApp.charged h (AdminApp.completed apt h db) ->
  fst (AdminApp.incomplete_complaint apt h c) = Returned false.
Proof.
  intros Hw.
  unfold AdminApp.incomplete_complaint, try_except, bind, execute, query.
  destruct (env c (calls c)) eqn:E0; cbn; [|reflexivity].
  rewrite count_positive, Hw.
  change (filter _ _) with (open_rows apt h (AdminApp.completed apt h db)).
  now rewrite completed_none_open.
Qed.



Example service_run :
  AdminApp.provide_service 1 "H1" sample =
    (Returned (inl ("Maintenance Service Completed for Apartment ID: 1, " ++
                    "House No: H1. Issues Fixed: " ++
                    "Leaking tap, Broken window, Loose tile")%string),
     settled sample 6
       (AdminApp.charged "H1" (AdminApp.completed 1 "H1" (working sample)))).
Proof. reflexivity. Qed.

(** A complaint filed with an empty description: the service is committed
    and the return statement raises. *)
Example service_with_null_description_run :
  let c := mkConnection (mkSchema None)
             (set_maintenance [Maintenance.mk 1 "H1" None 10 (Some "Pending"%string)]
                sample_db)
             (set_maintenance [Maintenance.mk 1 "H1" None 10 (Some "Pending"%string)]
                sample_db)
             (fun _ => Done 7) 0%nat in
  fst (AdminApp.provide_service 1 "H1" c) =
    Raised (TypeError "sequence item 0: expected str instance, NoneType found") /\
  TenantApp.due_amount_of "H1" (committed (snd (AdminApp.provide_service 1 "H1" c))) =
    Some (Some 600) /\
  open_rows 1 "H1" (committed (snd (AdminApp.provide_service 1 "H1" c))) = [].
Proof. repeat split. Qed.

(** A pair for which no complaint was ever filed gets the other message. *)
Example no_complaint_run :
  fst (AdminApp.provide_service 2 "H1" sample) = Returned (inl AdminApp.no_complaint).
Proof. reflexivity. Qed.

(** C10: when AdminApp.provide_service returns the completion message for
    (apt, H), every Maintenance row of the pair has status 'Completed', in
    the working and in the committed store, whatever its status was before;
    AdminApp.incomplete_complaint for the pair then returns False. *)
Theorem completed_leaves_none_incomplete (c c' : Connection) (apt : Z) (h : string)
    (joined : string) :
  AdminApp.provide_service apt h c =
    (Returned (inl (AdminApp.completed_message apt h joined)), c') ->
  (forall m, In m (maintenance (working c')) ->
             AdminApp.of_pair apt h m = true ->
             Maintenance.status m = Some "Completed"%string) /\
  (forall m, In m (maintenance (committed c')) ->
             AdminApp.of_pair apt h m = true ->
             Maintenance.status m = Some "Completed"%string) /\
  open_rows apt h (working c') = [] /\
  fst (AdminApp.incomplete_complaint apt h c') = Returned false.
Proof.
  intros Hrun. apply provide_service_completed_inv in Hrun. subst c'.
  cbn [settled working committed]. repeat split.
  - intros m Hin. apply (completed_status apt h (working c)). exact Hin.
  - intros m Hin. apply (completed_status apt h (working c)). exact Hin.
  - change (open_rows apt h (AdminApp.completed apt h (working c)) = []).
    apply completed_none_open.
  - now apply (incomplete_after_completed _ apt h (working c)).
Qed.

Lemma completed_leaves_none_incomplete_witness :
  let c' := snd (AdminApp.provide_service 1 "H1" sample) in
  (forall m, In m (maintenance (working c')) ->
             AdminApp.of_pair 1 "H1" m = true ->
             Maintenance.status m = Some "Completed"%string) /\
  (forall m, In m (maintenance (committed c')) ->
             AdminApp.of_pair 1 "H1" m = true ->
             Maintenance.status m = Some "Completed"%string) /\
  open_rows 1 "H1" (working c') = [] /\
  fst (AdminApp.incomplete_complaint 1 "H1" c') = Returned false.
Proof.
  apply (completed_leaves_none_incomplete sample _ 1 "H1"
           "Leaking tap, Broken window, Loose tile").
  reflexivity.
Defined.

(** ** Latest audit entries *)

Lemma max_change_date_spec rows :
  rows <> [] ->
  exists latest,
    AdminApp.max_change_date rows = Some latest /\
    (forall r, In r rows -> Audit_Tenant.change_date r <= latest) /\
    (exists r, In r rows /\ Audit_Tenant.change_date r = latest).
Proof.
  induction rows as [|r rows IH]; [congruence|]. intros _.
  destruct rows as [|r' rows'].
  - exists (Audit_Tenant.change_date r). cbn. repeat split.
    + intros x [<-|[]]. lia.
    + exists r. auto.
  - destruct IH as [m [Hm [Hle [w [Hw Hwm]]]]]; [discriminate|].
    exists (Z.max (Audit_Tenant.change_date r) m). repeat split.
    + change (AdminApp.max_change_date (r :: r' :: rows'))
        with (match AdminApp.max_change_date (r' :: rows') with
              | None => Some (Audit_Tenant.change_date r)
              | Some m => Some (Z.max (Audit_Tenant.change_date r) m)
              end).
      now rewrite Hm.
    + intros x [<-|Hin]; [lia|]. specialize (Hle x Hin). lia.
    + destruct (Z.max_spec (Audit_Tenant.change_date r) m) as [[_ E]|[_ E]].
      * exists w. split; [now right|]. lia.
      * exists r. split; [now left|]. lia.
Qed.

(** C7: for a non-empty Audit_Tenant table (and a query that is answered),
    AdminApp.display_latest_modifications_gui returns the selected columns
    of exactly the rows whose change_date is the maximum of the table: the
    maximum bounds every change_date and is attained, the result is not
    empty, a row of the table is in the result if and only if its
    change_date is the maximum, and every returned entry carries the
    maximum as its change date. *)
Theorem latest_entries_are_the_maximal_ones (c : Connection) (now : Z) :
  audit_tenant (working c) <> [] ->
  env c (calls c) = Done now ->
  exists latest infos,
    fst (AdminApp.display_latest_modifications_gui c) = Returned (infos, None) /\
    (forall r, In r (audit_tenant (working c)) ->
               Audit_Tenant.change_date r <= latest) /\
    (exists r, In r (audit_tenant (working c)) /\
               Audit_Tenant.change_date r = latest) /\
    infos = map AdminApp.selected
              (filter (fun r => Audit_Tenant.change_date r =? latest)
                 (audit_tenant (working c))) /\
    infos <> [] /\
    (forall r, In r (audit_tenant (working c)) ->
               (In (AdminApp.selected r) infos <->
                Audit_Tenant.change_date r = latest)) /\
    (forall i, In i infos -> snd i = latest).
Proof.
  intros Hne Hnow.
  destruct (max_change_date_spec _ Hne) as [m [Hm [Hle [w [Hw Hwm]]]]].
  set (infos := map AdminApp.selected
                  (filter (fun r => Audit_Tenant.change_date r =? m)
                     (audit_tenant (working c)))).
  assert (Hw' : In (AdminApp.selected w) infos).
  { apply in_map, filter_In. split; [exact Hw|]. now apply Z.eqb_eq. }
  assert (Hinfos : infos <> []) by (intros E; rewrite E in Hw'; destruct Hw').
  exists m, infos. repeat split; auto.
  - unfold AdminApp.display_latest_modifications_gui, try_except, bind, execute,
      AdminApp.select_latest, query.
    rewrite Hnow, Hm. cbn. fold infos.
    destruct infos; [congruence|reflexivity].
  - eauto.
  - intros Hin. apply in_map_iff in Hin. destruct Hin as [r' [Hsel Hr']].
    apply filter_In in Hr'. destruct Hr' as [_ Hr'].
    apply Z.eqb_eq in Hr'.
    assert (E : snd (AdminApp.selected r') = snd (AdminApp.selected r))
      by now rewrite Hsel.
    cbn in E. lia.
  - intros E. apply in_map, filter_In. split; [assumption|]. now apply Z.eqb_eq.
  - intros i Hin. apply in_map_iff in Hin. destruct Hin as [r' [<- Hr']].
    apply filter_In in Hr'. destruct Hr' as [_ Hr'].
    apply Z.eqb_eq in Hr'. exact Hr'.
Qed.

Lemma latest_entries_are_the_maximal_ones_witness :
  exists latest infos,
    fst (AdminApp.display_latest_modifications_gui audited) = Returned (infos, None) /\
    (forall r, In r (audit_tenant (working audited)) ->
               Audit_Tenant.change_date r <= latest) /\
    (exists r, In r (audit_tenant (working audited)) /\
               Audit_Tenant.change_date r = latest) /\
    infos = map AdminApp.selected
              (filter (fun r => Audit_Tenant.change_date r =? latest)
                 (audit_tenant (working audited))) /\
    infos <> [] /\
    (forall r, In r (audit_tenant (working audited)) ->
               (In (AdminApp.selected r) infos <->
                Audit_Tenant.change_date r = latest)) /\
    (forall i, In i infos -> snd i = latest).
Proof.
  apply (latest_entries_are_the_maximal_ones audited 40);
    [discriminate | reflexivity].
Defined.

Example latest_entries_run :
  fst (AdminApp.display_latest_modifications_gui audited) =
    Returned ([(2, "H3", "DELETE", 31); (3, "H3", "DELETE", 31)]%string, None).
Proof. reflexivity. Qed.

(** * Invariants of the store

    A property of the store is kept by an operation when every statement
    the operation may execute keeps it: commit and rollback only copy one
    copy of the store over the other. *)

Section Keeps.
Variable P : DB -> Prop.

Lemma keeps_ret {A} (a : A) : keeps P (ret a).
Proof. intros c H. exact H. Qed.

Lemma keeps_raise {A} (e : exn) : keeps P (@raise A e).
Proof. intros c H. exact H. Qed.

Lemma keeps_bind {A B} (m : Db A) (k : A -> Db B) :
  keeps P m -> (forall a, keeps P (k a)) -> keeps P (bind m k).
Proof.
  intros Hm Hk c H. unfold bind. specialize (Hm c H).
  destruct (m c) as [[a|e] c']; cbn in *; [now apply Hk|exact Hm].
Qed.

Lemma keeps_try_except {A} (body : Db A) (handler : string -> Db A) :
  keeps P body -> (forall e, keeps P (handler e)) -> keeps P (try_except body handler).
Proof.
  intros Hb Hh c H. unfold try_except. specialize (Hb c H).
  destruct (body c) as [[a|[e|k|t]] c']; cbn in *; auto. now apply Hh.
Qed.

Lemma keeps_try_except_Exception {A} (body : Db A) (handler : exn -> Db A) :
  keeps P body -> (forall e, keeps P (handler e)) ->
  keeps P (try_except_Exception body handler).
Proof.
  intros Hb Hh c H. unfold try_except_Exception. specialize (Hb c H).
  destruct (body c) as [[a|e] c']; cbn in *; auto. now apply Hh.
Qed.

Lemma keeps_execute {A} (stmt : statement A) : sound P stmt -> keeps P (execute stmt).
Proof.
  intros Hs c [Hc Hw]. unfold execute.
  destruct (env c (calls c)) as [now|e]; [|split; assumption].
  destruct (stmt (schema c) now (working c)) as [[a db']|] eqn:E;
    [|split; assumption].
  split; [exact Hc|]. exact (Hs _ _ _ _ _ E Hw).
Qed.

Lemma keeps_commit : keeps P commit.
Proof.
  intros c [Hc Hw]. unfold commit.
  destruct (env c (calls c)); split; assumption.
Qed.

Lemma keeps_rollback : keeps P rollback.
Proof. intros c [Hc Hw]. split; assumption. Qed.

Lemma keeps_getitem {A} key (v : option A) : keeps P (getitem key v).
Proof. destruct v; [apply keeps_ret|apply keeps_raise]. Qed.

Lemma sound_query {A} (q : DB -> A) : sound P (query q).
Proof. intros sch now db a db' E H. injection E as _ <-. exact H. Qed.

Lemma sound_dml (f : DB -> DB) : (forall db, P db -> P (f db)) -> sound P (dml f).
Proof. intros Hf sch now db a db' E H. injection E as _ <-. now apply Hf. Qed.
End Keeps.

(** Splits a computation along its binds, handlers and case distinctions,
    down to the statements it executes. *)
Ltac keeps_steps :=
  repeat first
    [ apply keeps_ret
    | apply keeps_raise
    | apply keeps_commit
    | apply keeps_rollback
    | apply keeps_getitem
    | apply keeps_try_except; [|intros ?]
    | apply keeps_try_except_Exception; [|intros ?]
    | apply keeps_bind; [|intros ?]
    | apply keeps_execute
    | apply sound_query
    | match goal with
      | |- keeps _ (if ?b then _ else _) => destruct b
      | |- keeps _ (match ?x with _ => _ end) => destruct x
      end ].

Section Kept.
Variable P : DB -> Prop.
Hypothesis HP : kept P.

Lemma sound_insert_tenant cmd : sound P (AddTenantCommand.insert_tenant cmd).
Proof.
  intros sch now db a db' E H. unfold AddTenantCommand.insert_tenant in E.
  destruct (existsb _ _) eqn:Hfresh; [discriminate|].
  injection E as _ <-. now apply (kept_inserted P HP).
Qed.

Lemma sound_insert_audit h name phone apt moved action :
  sound P (AuditLogger.insert_audit h name phone apt moved action).
Proof.
  intros sch now db a db' E H. injection E as _ <-. now apply (kept_logged P HP).
Qed.

Lemma sound_insert_maintenance sd apt h descr :
  sound P (TenantApp.insert_maintenance sd apt h descr).
Proof.
  intros sch now db a db' E H. injection E as _ <-. now apply (kept_filed P HP).
Qed.

(** Closes what [keeps_steps] leaves: the statements that change the store
    and the notification of the observers. *)
Lemma keeps_logger event_type data : keeps P (AuditLogger.update event_type data).
Proof.
  unfold AuditLogger.update. keeps_steps; apply sound_insert_audit.
Qed.

Lemma keeps_notify obs event_type data :
  keeps P (TenantManager.notify obs event_type data).
Proof.
  induction obs as [|o obs IH]; cbn [TenantManager.notify]; [apply keeps_ret|].
  apply keeps_bind; [|intros _; exact IH].
  destruct o. apply keeps_logger.
Qed.

Lemma keeps_join_issues issues : keeps P (AdminApp.join_issues issues).
Proof. unfold AdminApp.join_issues. keeps_steps. Qed.

Ltac keeps_statements :=
  keeps_steps;
  first
    [ apply sound_insert_tenant
    | apply keeps_join_issues
    | apply sound_insert_audit
    | apply sound_insert_maintenance
    | apply keeps_notify
    | apply sound_dml;
      first
        [ apply (kept_updated P HP)
        | apply (kept_deleted P HP)
        | apply (kept_recorded P HP)
        | apply (kept_credited P HP)
        | apply (kept_completed P HP)
        | apply (kept_charged P HP) ] ].

Lemma keeps_add manager command : keeps P (TenantManager.add_tenant manager command).
Proof.
  unfold TenantManager.add_tenant, TenantManager.notify_observers,
    AddTenantCommand.execute.
  keeps_statements.
Qed.

Lemma keeps_update manager command :
  keeps P (TenantManager.update_tenant manager command).
Proof.
  unfold TenantManager.update_tenant, TenantManager.notify_observers,
    UpdateTenantCommand.execute.
  keeps_statements.
Qed.

Lemma keeps_delete manager house_no :
  keeps P (AdminApp.delete_tenant manager house_no).
Proof.
  unfold AdminApp.delete_tenant, TenantManager.delete_tenant,
    TenantManager.notify_observers, DeleteTenantCommand.execute.
  keeps_statements.
Qed.

Lemma keeps_make_payment h d a m : keeps P (TenantApp.make_payment h d a m).
Proof. unfold TenantApp.make_payment. keeps_statements. Qed.

Lemma keeps_submit_payment h d a m :
  keeps P (TenantApp.make_payment_gui_process_payment h d a m).
Proof.
  unfold TenantApp.make_payment_gui_process_payment.
  destruct (strategy_of m); [|apply keeps_ret].
  apply keeps_bind; [apply keeps_make_payment|intros ?; apply keeps_ret].
Qed.

Lemma keeps_request sd apt h descr :
  keeps P (TenantApp.request_maintenance sd apt h descr).
Proof. unfold TenantApp.request_maintenance. keeps_statements. Qed.

Lemma keeps_service apt h : keeps P (AdminApp.provide_service apt h).
Proof. unfold AdminApp.provide_service. keeps_statements. Qed.

Lemma keeps_view_due_amount h : keeps P (TenantApp.view_due_amount h).
Proof. unfold TenantApp.view_due_amount. keeps_steps. Qed.

Lemma keeps_view_payment_history h : keeps P (TenantApp.view_payment_history h).
Proof.
  unfold TenantApp.view_payment_history, TenantApp.select_payments. keeps_steps.
Qed.

Lemma keeps_show_list_apartments :
  keeps P (AdminApp.show_list_apartments TheConnection).
Proof.
  unfold AdminApp.show_list_apartments, ListApartmentsCommand.execute,
    ListApartmentsCommand.select_apartments.
  keeps_steps.
Qed.

Lemma keeps_show_list_tenants : keeps P (AdminApp.show_list_tenants TheConnection).
Proof.
  unfold AdminApp.show_list_tenants, ListTenantsCommand.execute. keeps_steps.
Qed.

Lemma keeps_display_complaints : keeps P AdminApp.display_complaints_gui.
Proof. unfold AdminApp.display_complaints_gui. keeps_steps. Qed.

Lemma keeps_display_latest : keeps P AdminApp.display_latest_modifications_gui.
Proof.
  unfold AdminApp.display_latest_modifications_gui, AdminApp.select_latest.
  keeps_steps.
Qed.

Lemma run_keeps manager sd o c : both P c -> both P (run manager sd o c).
Proof.
  destruct o; cbn [run].
  - apply keeps_add.
  - apply keeps_update.
  - apply keeps_delete.
  - apply keeps_submit_payment.
  - apply keeps_request.
  - apply keeps_service.
  - apply keeps_view_due_amount.
  - apply keeps_view_payment_history.
  - apply keeps_show_list_apartments.
  - apply keeps_show_list_tenants.
  - apply keeps_display_complaints.
  - apply keeps_display_latest.
Qed.

Lemma run_all_keeps manager sd os c : both P c -> both P (run_all manager sd os c).
Proof.
  unfold run_all. revert c.
  induction os as [|o os IH]; intros c H; cbn [fold_left]; [exact H|].
  apply IH. now apply run_keeps.
Qed.
End Kept.

(** ** House numbers stay unique *)

Lemma fresh_not_in h ts :
  existsb (house_no_is h) ts = false -> ~ In h (map Tenant.house_no ts).
Proof.
  intros Hfresh Hin. apply in_map_iff in Hin. destruct Hin as [t [Ht Hin]].
  assert (E : existsb (house_no_is h) ts = true).
  { apply existsb_exists. exists t. split; [exact Hin|].
    unfold house_no_is. rewrite Ht. apply String.eqb_refl. }
  congruence.
Qed.

Lemma NoDup_snoc {A} (x : A) (l : list A) :
  NoDup l -> ~ In x l -> NoDup (l ++ [x]).
Proof.
  induction l as [|y l IH]; intros Hl Hx; cbn.
  - constructor; [intros []|constructor].
  - inversion Hl as [|? ? Hy Hl']; subst. constructor.
    + intros Hin. apply in_app_or in Hin. destruct Hin as [Hin|[->|[]]].
      * contradiction.
      * apply Hx. now left.
    + apply IH; [exact Hl'|]. intros Hin. apply Hx. now right.
Qed.

Lemma keyed_filter (keep : Tenant.row -> bool) (ts : list Tenant.row) :
  NoDup (map Tenant.house_no ts) ->
  NoDup (map Tenant.house_no (filter keep ts)).
Proof.
  intros Hkeyed. induction ts as [|t ts IH]; cbn; [constructor|].
  cbn in Hkeyed. apply NoDup_cons_iff in Hkeyed. destruct Hkeyed as [Ht Hts].
  destruct (keep t); cbn; [|now apply IH].
  apply NoDup_cons; [|now apply IH].
  intros Hin. apply Ht. apply in_map_iff in Hin. destruct Hin as [t' [E Hin]].
  apply filter_In in Hin. apply in_map_iff. exists t'. tauto.
Qed.

Lemma house_no_update_row cmd t :
  Tenant.house_no (UpdateTenantCommand.update_row cmd t) = Tenant.house_no t.
Proof. unfold UpdateTenantCommand.update_row. now destruct (house_no_is _ t). Qed.

Lemma house_no_pay_row h a t :
  Tenant.house_no (TenantApp.pay_row h a t) = Tenant.house_no t.
Proof. unfold TenantApp.pay_row. now destruct (house_no_is h t). Qed.

Lemma house_no_charge_row h t :
  Tenant.house_no (AdminApp.charge_row h t) = Tenant.house_no t.
Proof. unfold AdminApp.charge_row. now destruct (house_no_is h t). Qed.

Lemma map_map_same {A B} (f : A -> B) (g : A -> A) (l : list A) :
  (forall x, f (g x) = f x) -> map f (map g l) = map f l.
Proof. intros H. rewrite map_map. apply map_ext. exact H. Qed.

Lemma kept_keyed : kept keyed.
Proof.
  constructor; unfold keyed; cbn; intros; auto.
  - rewrite map_app. cbn. apply NoDup_snoc; [assumption|].
    now apply fresh_not_in.
  - rewrite map_map_same; [assumption|]. apply house_no_update_row.
  - now apply keyed_filter.
  - rewrite map_map_same; [assumption|]. apply house_no_pay_row.
  - rewrite map_map_same; [assumption|]. apply house_no_charge_row.
Qed.

(** X1: whatever operations of the two windows are run, in whatever order,
    with any registered observers and whatever the server answers to each
    request: if no two Tenant rows share a house_no before (in the committed
    store and in the open transaction), none do after. *)
Theorem house_numbers_stay_unique (manager : TenantManager.t)
    (status_default : option string) (os : list operation) (c : Connection) :
  keyed (committed c) ->
  keyed (working c) ->
  keyed (committed (run_all manager status_default os c)) /\
  keyed (working (run_all manager status_default os c)).
Proof.
  intros Hc Hw. apply (run_all_keeps keyed kept_keyed). split; assumption.
Qed.

Lemma house_numbers_stay_unique_witness :
  keyed (committed (run_all tenant_manager (Some "Pending"%string) a_day (failing_at 9))) /\
  keyed (working (run_all tenant_manager (Some "Pending"%string) a_day (failing_at 9))).
Proof.
  apply (house_numbers_stay_unique tenant_manager (Some "Pending"%string) a_day
           (failing_at 9));
    (constructor; [intros []|constructor]).
Defined.

(** ** Tables that only grow, and the table that never changes *)

Lemma extends_app {A} (old rows more : list A) :
  extends old rows -> extends old (rows ++ more).
Proof. intros [rest ->]. exists (rest ++ more). now rewrite app_assoc. Qed.

Lemma kept_apartments (A : list Apartment.row) : kept (fun db => apartments db = A).
Proof. constructor; cbn; intros; assumption. Qed.

(** X2: no operation of the two windows changes the Apartment table: after
    any sequence of operations, with any observers and any answers of the
    server, both copies of the store hold the Apartment rows they held
    before. *)
Theorem apartments_never_change (manager : TenantManager.t)
    (status_default : option string) (os : list operation) (c : Connection) :
  apartments (working c) = apartments (committed c) ->
  apartments (committed (run_all manager status_default os c)) =
    apartments (committed c) /\
  apartments (working (run_all manager status_default os c)) =
    apartments (committed c).
Proof.
  intros H.
  apply (run_all_keeps _ (kept_apartments (apartments (committed c)))).
  split; [reflexivity|exact H].
Qed.

Lemma apartments_never_change_witness :
  apartments (committed (run_all tenant_manager None a_day sample)) =
    apartments (committed sample) /\
  apartments (working (run_all tenant_manager None a_day sample)) =
    apartments (committed sample).
Proof.
  apply (apartments_never_change tenant_manager None a_day sample). reflexivity.
Defined.

Lemma kept_append_only (A : list Audit_Tenant.row) (B : list Payment.row) :
  kept (fun db => extends A (audit_tenant db) /\ extends B (payments db)).
Proof.
  constructor; cbn; intros; try assumption.
  - split; [apply extends_app|]; tauto.
  - split; [|apply extends_app]; tauto.
Qed.

(** X3: Audit_Tenant and Payment only grow.  If the rows [A] (resp. [B])
    are the beginning of the Audit_Tenant (resp. Payment) table in both
    copies of the store, they still are after any sequence of operations,
    with any observers and any answers of the server: no operation removes,
    reorders or alters a row that is there. *)
Theorem audit_and_payments_only_grow (manager : TenantManager.t)
    (status_default : option string) (os : list operation) (c : Connection)
    (A : list Audit_Tenant.row) (B : list Payment.row) :
  extends A (audit_tenant (committed c)) ->
  extends A (audit_tenant (working c)) ->
  extends B (payments (committed c)) ->
  extends B (payments (working c)) ->
  let c' := run_all manager status_default os c in
  extends A (audit_tenant (committed c')) /\
  extends A (audit_tenant (working c')) /\
  extends B (payments (committed c')) /\
  extends B (payments (working c')).
Proof.
  intros H1 H2 H3 H4.
  destruct (run_all_keeps _ (kept_append_only A B) manager status_default os c)
    as [[? ?] [? ?]]; [repeat split; assumption|].
  cbv zeta. repeat split; assumption.
Qed.

Lemma audit_and_payments_only_grow_witness :
  let c' := run_all tenant_manager None a_day audited in
  extends (audit_tenant (committed audited)) (audit_tenant (committed c')) /\
  extends (audit_tenant (committed audited)) (audit_tenant (working c')) /\
  extends (payments (committed audited)) (payments (committed c')) /\
  extends (payments (committed audited)) (payments (working c')).
Proof.
  apply (audit_and_payments_only_grow tenant_manager None a_day audited);
    exists []; reflexivity.
Defined.

Lemma request_complete_row apt h m : request (AdminApp.complete_row apt h m) = request m.
Proof. unfold AdminApp.complete_row. now destruct (AdminApp.of_pair apt h m). Qed.

Lemma kept_requests (K : list (Z * string * option string * Z)) :
  kept (fun db => extends K (map request (maintenance db))).
Proof.
  constructor; cbn; intros; try assumption.
  - rewrite map_app. now apply extends_app.
  - rewrite map_map_same; [assumption|]. apply request_complete_row.
Qed.

(** X4: maintenance requests are never removed and never rewritten: the
    requests (apartment, house, description, date) that begin the
    Maintenance table in both copies of the store still begin it, in the
    same order, after any sequence of operations; only the status of a row
    may change. *)
Theorem requests_are_kept (manager : TenantManager.t)
    (status_default : option string) (os : list operation) (c : Connection)
    (K : list (Z * string * option string * Z)) :
  extends K (map request (maintenance (committed c))) ->
  extends K (map request (maintenance (working c))) ->
  let c' := run_all manager status_default os c in
  extends K (map request (maintenance (committed c'))) /\
  extends K (map request (maintenance (working c'))).
Proof.
  intros H1 H2.
  apply (run_all_keeps _ (kept_requests K)). split; assumption.
Qed.

Lemma requests_are_kept_witness :
  let c' := run_all tenant_manager None a_day sample in
  extends (map request (maintenance sample_db)) (map request (maintenance (committed c'))) /\
  extends (map request (maintenance sample_db)) (map request (maintenance (working c'))).
Proof.
  apply (requests_are_kept tenant_manager None a_day sample); exists []; reflexivity.
Defined.

(** ** Observers *)

Lemma notify_rows obs event_type cmd :
  String.eqb event_type "DELETE" = false ->
  forall c, reliable c ->
  exists rows,
    List.length rows = List.length obs /\
    Forall (fun r => Audit_Tenant.action r = event_type /\
                     Audit_Tenant.house_no r = house_no cmd) rows /\
    fst (TenantManager.notify obs event_type (TenantManager.tenant_data cmd) c) =
      Returned tt /\
    working (snd (TenantManager.notify obs event_type
                    (TenantManager.tenant_data cmd) c)) =
      set_audit_tenant (audit_tenant (working c) ++ rows) (working c).
Proof.
  intros Hev. induction obs as [|o obs IH]; intros c H.
  - exists []. cbn. rewrite app_nil_r. destruct (working c); repeat split; constructor.
  - cbn [TenantManager.notify]. destruct o. cbn [Observer_update]. unfold bind.
    rewrite (log_details_run c event_type cmd H Hev).
    set (c1 := settled c 2 _).
    destruct (IH c1) as [rows [Hlen [Hall [Hfst Hw]]]];
      [now apply reliable_settled|].
    exists (Audit_Tenant.mk
              (next_id (map Audit_Tenant.audit_id (audit_tenant (working c))))
              (house_no cmd) (Some (tenant_name cmd)) (Some (phone_number cmd))
              (Some (apartment_id cmd)) (Some (move_in_date cmd)) event_type
              (clock c (calls c)) :: rows).
    repeat split.
    + cbn. now rewrite Hlen.
    + constructor; [|exact Hall]. split; reflexivity.
    + exact Hfst.
    + rewrite Hw. unfold c1. cbn. now rewrite <- app_assoc.
Qed.

(** X5: every registered observer writes its own audit row.  With a server
    that answers, TenantManager.add_tenant of a fresh house_no appends as
    many INSERT rows for that house_no to Audit_Tenant as observers are
    registered with the manager: none for a manager without observer, two
    when the logger was registered twice. *)
Theorem one_audit_row_per_observer (manager : TenantManager.t) (cmd : TenantCommand)
    (c : Connection) :
  reliable c ->
  connection cmd = TheConnection ->
  existsb (house_no_is (house_no cmd)) (tenants (working c)) = false ->
  exists rows,
    audit_tenant (working (snd (TenantManager.add_tenant manager cmd c))) =
      audit_tenant (working c) ++ rows /\
    List.length rows = List.length (TenantManager.observers manager) /\
    Forall (fun r => Audit_Tenant.action r = "INSERT"%string /\
                     Audit_Tenant.house_no r = house_no cmd) rows.
Proof.
  intros H Hc Hfresh.
  unfold TenantManager.add_tenant, bind.
  rewrite (add_fresh_run c cmd H Hc Hfresh).
  unfold TenantManager.notify_observers.
  set (c1 := settled c 2 _).
  destruct (notify_rows (TenantManager.observers manager) "INSERT" cmd eq_refl c1)
    as [rows [Hlen [Hall [Hfst Hw]]]]; [now apply reliable_settled|].
  exists rows. repeat split; [|exact Hlen|exact Hall].
  destruct (TenantManager.notify _ _ _ c1) as [[[]|e] c2]; cbn in *;
    [|discriminate].
  rewrite Hw. reflexivity.
Qed.

Lemma one_audit_row_per_observer_witness :
  let twice := TenantManager.register_observer tenant_manager AuditLoggerObserver in
  exists rows,
    audit_tenant (working (snd (TenantManager.add_tenant twice new_tenant sample))) =
      audit_tenant (working sample) ++ rows /\
    List.length rows = List.length (TenantManager.observers twice) /\
    Forall (fun r => Audit_Tenant.action r = "INSERT"%string /\
                     Audit_Tenant.house_no r = house_no new_tenant) rows.
Proof.
  apply (one_audit_row_per_observer
           (TenantManager.register_observer tenant_manager AuditLoggerObserver)
           new_tenant sample);
    [intros n; exists 7; reflexivity | reflexivity | reflexivity].
Defined.

(** X6: a missing key stops the audit logger before it talks to the server.
    When the data dict has no 'house_no', or the event is not 'DELETE' and
    one of 'tenant_name', 'phone_number', 'apartment_id', 'move_in_date' is
    missing, AuditLogger.update raises KeyError (its handler catches
    DatabaseError only) and the connection is exactly as before. *)
Theorem audit_logger_missing_key (event_type : string) (data : TenantData)
    (c : Connection) :
  data_house_no data = None \/
  (String.eqb event_type "DELETE" = false /\
   (data_tenant_name data = None \/ data_phone_number data = None \/
    data_apartment_id data = None \/ data_move_in_date data = None)) ->
  exists key, AuditLogger.update event_type data c = (Raised (KeyError key), c).
Proof.
  unfold AuditLogger.update, try_except, bind, getitem, raise, ret.
  destruct data as [h n p a m]. cbn.
  intros [->|[-> Hmissing]].
  - destruct (String.eqb event_type "DELETE"); eexists; reflexivity.
  - destruct h; [|eexists; reflexivity].
    destruct n; [|eexists; reflexivity].
    destruct p; [|eexists; reflexivity].
    destruct a; [|eexists; reflexivity].
    destruct m; [|eexists; reflexivity].
    destruct Hmissing as [E|[E|[E|E]]]; discriminate E.
Qed.

Lemma audit_logger_missing_key_witness :
  exists key,
    AuditLogger.update "UPDATE" (mkTenantData (Some "H1"%string) None None None None)
      sample = (Raised (KeyError key), sample).
Proof.
  apply (audit_logger_missing_key "UPDATE"
           (mkTenantData (Some "H1"%string) None None None None) sample).
  right. split; [reflexivity|]. left. reflexivity.
Defined.

(** ** An audit row whose commit failed *)

(** X7: the audit logger does not roll back.  When its INSERT is answered
    and its commit is refused, AuditLogger.update returns normally and the
    audit row stays in the open transaction: it is in the working store and
    not in the committed one.  What becomes of it is decided by the next
    operation: an update command that is answered commits it together with
    its own change; behind a server that refuses the next request, a payment
    rolls the transaction back and the audit row is gone. *)
Theorem uncommitted_audit_row (c : Connection) (cmd other : TenantCommand)
    (now now2 now3 : Z) (message : string) :
  env c (calls c) = Done now ->
  env c (1 + calls c)%nat = Refused message ->
  env c (2 + calls c)%nat = Done now2 ->
  env c (3 + calls c)%nat = Done now3 ->
  connection other = TheConnection ->
  let row :=
    Audit_Tenant.mk (next_id (map Audit_Tenant.audit_id (audit_tenant (working c))))
      (house_no cmd) (Some (tenant_name cmd)) (Some (phone_number cmd))
      (Some (apartment_id cmd)) (Some (move_in_date cmd)) "INSERT" now in
  let logged := AuditLogger.update "INSERT" (TenantManager.tenant_data cmd) c in
  let lost :=
    snd (AuditLogger.update "INSERT" (TenantManager.tenant_data cmd)
           (refusing c (2 + calls c) message)) in
  fst logged = Returned tt /\
  committed (snd logged) = committed c /\
  audit_tenant (working (snd logged)) = audit_tenant (working c) ++ [row] /\
  audit_tenant (committed (snd (UpdateTenantCommand.execute other (snd logged)))) =
    audit_tenant (working c) ++ [row] /\
  audit_tenant (working lost) = audit_tenant (working c) ++ [row] /\
  (forall h d a m,
      working (snd (TenantApp.make_payment h d a m lost)) = committed c /\
      committed (snd (TenantApp.make_payment h d a m lost)) = committed c).
Proof.
  intros E0 E1 E2 E3 Hother. cbv zeta.
  assert (N0 : Nat.eqb (calls c) (S (S (calls c))) = false)
    by (apply Nat.eqb_neq; lia).
  assert (N1 : Nat.eqb (calls c) (S (calls c)) = false)
    by (apply Nat.eqb_neq; lia).
  rewrite (log_uncommitted_run c "INSERT" cmd now message eq_refl E0 E1).
  rewrite (log_uncommitted_run (refusing c (2 + calls c) message) "INSERT" cmd now
             message eq_refl)
    by (cbn; rewrite ?N0, ?N1; assumption).
  cbn [fst snd committed working refusing schema env calls].
  split; [reflexivity|]. split; [reflexivity|]. split; [reflexivity|]. split.
  - unfold UpdateTenantCommand.execute, try_except, bind, execute, commit,
      UpdateTenantCommand.update_tenant, dml.
    rewrite Hother. cbn. cbn in E2, E3. rewrite E2. cbn. rewrite E3. reflexivity.
  - split; [reflexivity|]. intros h d a m.
    unfold TenantApp.make_payment, try_except, bind, execute, rollback. cbn.
    rewrite Nat.eqb_refl. split; reflexivity.
Qed.

Lemma uncommitted_audit_row_witness :
  let message := "ORA-03113: end-of-file on communication channel"%string in
  let row :=
    Audit_Tenant.mk
      (next_id (map Audit_Tenant.audit_id (audit_tenant (working audit_commit_fails))))
      "H2" (Some "Ben"%string) (Some "555-0102"%string) (Some 1)
      (Some (2024, 2, 1)) "INSERT" 7 in
  let logged :=
    AuditLogger.update "INSERT" (TenantManager.tenant_data new_tenant)
      audit_commit_fails in
  let lost :=
    snd (AuditLogger.update "INSERT" (TenantManager.tenant_data new_tenant)
           (refusing audit_commit_fails (2 + calls audit_commit_fails) message)) in
  fst logged = Returned tt /\
  committed (snd logged) = committed audit_commit_fails /\
  audit_tenant (working (snd logged)) =
    audit_tenant (working audit_commit_fails) ++ [row] /\
  audit_tenant (committed (snd (UpdateTenantCommand.execute same_house (snd logged)))) =
    audit_tenant (working audit_commit_fails) ++ [row] /\
  audit_tenant (working lost) = audit_tenant (working audit_commit_fails) ++ [row] /\
  (forall h d a m,
      working (snd (TenantApp.make_payment h d a m lost)) =
        committed audit_commit_fails /\
      committed (snd (TenantApp.make_payment h d a m lost)) =
        committed audit_commit_fails).
Proof.
  apply (uncommitted_audit_row audit_commit_fails new_tenant same_house 7 7 7
           "ORA-03113: end-of-file on communication channel");
    reflexivity.
Defined.

(** The answered continuation of the witness, evaluated. *)
Example late_audit_commit_run :
  audit_tenant
    (committed
       (snd (UpdateTenantCommand.execute same_house
               (snd (AuditLogger.update "INSERT"
                       (TenantManager.tenant_data new_tenant) audit_commit_fails))))) =
    [Audit_Tenant.mk 1 "H2" (Some "Ben"%string) (Some "555-0102"%string) (Some 1)
       (Some (2024, 2, 1)) "INSERT" 7].
Proof. reflexivity. Qed.

(** ** Updating and deleting tenants *)

Lemma due_amount_of_updated cmd h db :
  TenantApp.due_amount_of h (UpdateTenantCommand.updated cmd db) =
    TenantApp.due_amount_of h db.
Proof.
  unfold TenantApp.due_amount_of, UpdateTenantCommand.updated, fetchone. cbn.
  induction (tenants db) as [|t ts IH]; cbn; [reflexivity|].
  assert (E : house_no_is h (UpdateTenantCommand.update_row cmd t) = house_no_is h t).
  { unfold house_no_is. now rewrite house_no_update_row. }
  rewrite E. destruct (house_no_is h t); cbn; [|exact IH].
  unfold UpdateTenantCommand.update_row. now destruct (house_no_is _ t).
Qed.

(** X8: updating a tenant never touches a balance or a house number.  After
    TenantManager.update_tenant (server answering), the Tenant table has the
    same house numbers in the same order, and every tenant, the updated one
    included, has the due_amount it had before. *)
Theorem update_keeps_balances (manager : TenantManager.t) (cmd : TenantCommand)
    (c : Connection) :
  reliable c ->
  connection cmd = TheConnection ->
  let c' := snd (TenantManager.update_tenant manager cmd c) in
  map Tenant.house_no (tenants (working c')) =
    map Tenant.house_no (tenants (working c)) /\
  forall h, TenantApp.due_amount_of h (working c') =
            TenantApp.due_amount_of h (working c).
Proof.
  intros H Hc. cbv zeta.
  unfold TenantManager.update_tenant, bind.
  rewrite (update_run c cmd H Hc).
  unfold TenantManager.notify_observers.
  set (c1 := settled c 2 _).
  destruct (notify_rows (TenantManager.observers manager) "UPDATE" cmd eq_refl c1)
    as [rows [_ [_ [Hfst Hw]]]]; [now apply reliable_settled|].
  destruct (TenantManager.notify _ _ _ c1) as [[[]|e] c2]; cbn in Hfst, Hw |- *;
    [|discriminate].
  rewrite Hw. cbn. split.
  - apply map_map_same. apply house_no_update_row.
  - intros h. apply (due_amount_of_updated cmd h (working c)).
Qed.

Lemma update_keeps_balances_witness :
  let c' := snd (TenantManager.update_tenant tenant_manager same_house sample) in
  map Tenant.house_no (tenants (working c')) =
    map Tenant.house_no (tenants (working sample)) /\
  forall h, TenantApp.due_amount_of h (working c') =
            TenantApp.due_amount_of h (working sample).
Proof.
  apply (update_keeps_balances tenant_manager same_house sample);
    [intros n; exists 7; reflexivity | reflexivity].
Defined.

Lemma updated_unknown cmd ts :
  existsb (house_no_is (house_no cmd)) ts = false ->
  map (UpdateTenantCommand.update_row cmd) ts = ts.
Proof.
  induction ts as [|t ts IH]; cbn; [reflexivity|].
  intros H. apply orb_false_iff in H. destruct H as [Ht Hts].
  unfold UpdateTenantCommand.update_row at 1. rewrite Ht. now rewrite IH.
Qed.

(** X9: an update that matches no row is logged like one that does.
    TenantManager.update_tenant for a house_no without Tenant row (server
    answering, the one logger of the main program registered) leaves the
    Tenant table as it is and appends one UPDATE row with the command's
    fields to Audit_Tenant. *)
Theorem update_of_unknown_house_is_logged (cmd : TenantCommand) (c : Connection) :
  reliable c ->
  connection cmd = TheConnection ->
  existsb (house_no_is (house_no cmd)) (tenants (working c)) = false ->
  let c' := snd (TenantManager.update_tenant tenant_manager cmd c) in
  tenants (committed c') = tenants (working c) /\
  exists id now,
    audit_tenant (committed c') =
      audit_tenant (working c) ++
        [Audit_Tenant.mk id (house_no cmd) (Some (tenant_name cmd))
           (Some (phone_number cmd)) (Some (apartment_id cmd))
           (Some (move_in_date cmd)) "UPDATE" now].
Proof.
  intros H Hc Hunknown. cbv zeta.
  rewrite (manager_update_run c cmd H Hc). cbn. split.
  - now apply updated_unknown.
  - do 2 eexists. reflexivity.
Qed.

Lemma update_of_unknown_house_is_logged_witness :
  let c' := snd (TenantManager.update_tenant tenant_manager new_tenant sample) in
  tenants (committed c') = tenants (working sample) /\
  exists id now,
    audit_tenant (committed c') =
      audit_tenant (working sample) ++
        [Audit_Tenant.mk id "H2" (Some "Ben"%string) (Some "555-0102"%string)
           (Some 1) (Some (2024, 2, 1)) "UPDATE" now].
Proof.
  apply (update_of_unknown_house_is_logged new_tenant sample);
    [intros n; exists 7; reflexivity | reflexivity | reflexivity].
Defined.

Lemma select_unknown h ts :
  existsb (house_no_is h) ts = false -> filter (house_no_is h) ts = [].
Proof.
  induction ts as [|t ts IH]; cbn; [reflexivity|].
  intros H. apply orb_false_iff in H. destruct H as [Ht Hts].
  rewrite Ht. now apply IH.
Qed.

(** X10: the delete handler writes nothing for an empty or unknown house
    number.  AdminApp.delete_tenant then shows a warning and leaves both
    copies of the store as they are, whatever the server answers and
    whatever observers are registered: no Tenant row is deleted and no audit
    row is written. *)
Theorem delete_of_unknown_house_writes_nothing (manager : TenantManager.t)
    (h : string) (c : Connection) :
  h = EmptyString \/ existsb (house_no_is h) (tenants (working c)) = false ->
  let run := AdminApp.delete_tenant manager h c in
  (exists title message, fst run = Returned (showwarning title message)) /\
  committed (snd run) = committed c /\
  working (snd run) = working c.
Proof.
  intros Hcase. cbv zeta. unfold AdminApp.delete_tenant.
  destruct (String.eqb_spec h "") as [->|Hne].
  - cbn. repeat split. do 2 eexists. reflexivity.
  - destruct Hcase as [->|Hunknown]; [contradiction|].
    unfold AdminApp.fetch_tenant_details, try_except, bind, execute,
      TenantApp.select_tenant, query, fetchone.
    rewrite (select_unknown h _ Hunknown). cbn.
    destruct (env c (calls c)); cbn; repeat split; do 2 eexists; reflexivity.
Qed.

Lemma delete_of_unknown_house_writes_nothing_witness :
  let run := AdminApp.delete_tenant tenant_manager "H9" (failing_at 3) in
  (exists title message, fst run = Returned (showwarning title message)) /\
  committed (snd run) = committed (failing_at 3) /\
  working (snd run) = working (failing_at 3).
Proof.
  apply (delete_of_unknown_house_writes_nothing tenant_manager "H9" (failing_at 3)).
  right. reflexivity.
Defined.

(** ** Adding a tenant, then looking it up or deleting it *)

Lemma new_row_matches cmd sch :
  house_no_is (house_no cmd)
    (Tenant.mk (house_no cmd) (tenant_name cmd) (phone_number cmd)
       (apartment_id cmd) (move_in_date cmd) (due_amount_default sch)) = true.
Proof. unfold house_no_is. cbn. apply String.eqb_refl. Qed.

Lemma keep_unknown h ts :
  existsb (house_no_is h) ts = false ->
  filter (fun t => negb (house_no_is h t)) ts = ts.
Proof.
  induction ts as [|t ts IH]; cbn; [reflexivity|].
  intros H. apply orb_false_iff in H. destruct H as [Ht Hts].
  rewrite Ht. cbn. now rewrite IH.
Qed.

Lemma deleted_inserted cmd sch db :
  existsb (house_no_is (house_no cmd)) (tenants db) = false ->
  tenants (DeleteTenantCommand.deleted (house_no cmd)
             (AddTenantCommand.inserted cmd sch db)) = tenants db.
Proof.
  intros Hfresh.
  unfold DeleteTenantCommand.deleted, AddTenantCommand.inserted, set_tenants.
  cbn [tenants]. rewrite filter_app. cbn [filter].
  rewrite new_row_matches. cbn [negb]. rewrite app_nil_r. now apply keep_unknown.
Qed.

Lemma select_inserted cmd sch db :
  existsb (house_no_is (house_no cmd)) (tenants db) = false ->
  filter (house_no_is (house_no cmd)) (tenants (AddTenantCommand.inserted cmd sch db)) =
    [Tenant.mk (house_no cmd) (tenant_name cmd) (phone_number cmd)
       (apartment_id cmd) (move_in_date cmd) (due_amount_default sch)].
Proof.
  intros Hfresh. unfold AddTenantCommand.inserted, set_tenants.
  cbn [tenants]. rewrite filter_app. cbn [filter].
  rewrite new_row_matches. now rewrite (select_unknown _ _ Hfresh).
Qed.

(** X11: adding a tenant and deleting it again restores the Tenant table and
    leaves three audit rows.  With a server that answers, a fresh non-empty
    house_no and the manager of the main program, TenantManager.add_tenant
    followed by AdminApp.delete_tenant of the same house_no ends with the
    Tenant table that was there before, committed, and with Audit_Tenant
    extended by one INSERT row and two DELETE rows for that house_no. *)
Theorem add_then_delete (cmd : TenantCommand) (c : Connection) :
  reliable c ->
  connection cmd = TheConnection ->
  house_no cmd <> EmptyString ->
  existsb (house_no_is (house_no cmd)) (tenants (working c)) = false ->
  let c1 := snd (TenantManager.add_tenant tenant_manager cmd c) in
  let c2 := snd (AdminApp.delete_tenant tenant_manager (house_no cmd) c1) in
  tenants (committed c2) = tenants (working c) /\
  exists id1 now1 id2 now2 id3 now3,
    audit_tenant (committed c2) =
      audit_tenant (working c) ++
        [Audit_Tenant.mk id1 (house_no cmd) (Some (tenant_name cmd))
           (Some (phone_number cmd)) (Some (apartment_id cmd))
           (Some (move_in_date cmd)) "INSERT" now1;
         delete_entry id2 (house_no cmd) now2;
         delete_entry id3 (house_no cmd) now3].
Proof.
  intros H Hc Hne Hfresh. cbv zeta.
  rewrite (manager_add_fresh_run c cmd H Hc Hfresh). cbn [snd].
  set (c1 := settled c 4 _).
  assert (Hex : existsb (house_no_is (house_no cmd)) (tenants (working c1)) = true).
  { unfold c1, AuditLogger.logged, AddTenantCommand.inserted, set_tenants,
      set_audit_tenant.
    cbn [settled working tenants]. rewrite existsb_app. cbn [existsb].
    rewrite new_row_matches. now rewrite orb_true_r. }
  rewrite (admin_delete_run c1 (house_no cmd)) by (auto using reliable_settled).
  unfold c1. cbn [snd settled committed working]. split.
  - change (tenants (DeleteTenantCommand.deleted (house_no cmd)
                       (AddTenantCommand.inserted cmd (schema c) (working c))) =
            tenants (working c)).
    now apply deleted_inserted.
  - cbn. rewrite <- !app_assoc. cbn. do 6 eexists. reflexivity.
Qed.

Lemma add_then_delete_witness :
  let c1 := snd (TenantManager.add_tenant tenant_manager new_tenant sample) in
  let c2 := snd (AdminApp.delete_tenant tenant_manager (house_no new_tenant) c1) in
  tenants (committed c2) = tenants (working sample) /\
  exists id1 now1 id2 now2 id3 now3,
    audit_tenant (committed c2) =
      audit_tenant (working sample) ++
        [Audit_Tenant.mk id1 (house_no new_tenant) (Some (tenant_name new_tenant))
           (Some (phone_number new_tenant)) (Some (apartment_id new_tenant))
           (Some (move_in_date new_tenant)) "INSERT" now1;
         delete_entry id2 (house_no new_tenant) now2;
         delete_entry id3 (house_no new_tenant) now3].
Proof.
  apply (add_then_delete new_tenant sample);
    [intros n; exists 7; reflexivity | reflexivity | discriminate | reflexivity].
Defined.

(** X12: a tenant that was added can be looked up.  After a successful
    TenantManager.add_tenant (server answering, fresh house_no, the manager
    of the main program), the tenant list shows the old rows followed by
    the new one, whose due_amount is the column default;
    AdminApp.fetch_tenant_details returns the fields that were supplied; and
    the tenant login with the shared password opens the tenant's window. *)
Theorem added_tenant_is_found (cmd : TenantCommand) (c : Connection) :
  reliable c ->
  connection cmd = TheConnection ->
  existsb (house_no_is (house_no cmd)) (tenants (working c)) = false ->
  let c1 := snd (TenantManager.add_tenant tenant_manager cmd c) in
  fst (AdminApp.show_list_tenants TheConnection c1) =
    Returned (tenants (working c) ++
                [Tenant.mk (house_no cmd) (tenant_name cmd) (phone_number cmd)
                   (apartment_id cmd) (move_in_date cmd)
                   (due_amount_default (schema c))],
              None) /\
  fst (AdminApp.fetch_tenant_details (house_no cmd) c1) =
    Returned (Some (TenantManager.tenant_data cmd)) /\
  fst (LoginPage.tenant_login (house_no cmd) "tenant123" c1) =
    Returned (LoginPage.opens_TenantApp (house_no cmd)).
Proof.
  intros H Hc Hfresh. cbv zeta.
  rewrite (manager_add_fresh_run c cmd H Hc Hfresh). cbn [snd].
  pose proof (select_inserted cmd (schema c) (working c) Hfresh) as Hsel.
  repeat split.
  - unfold AdminApp.show_list_tenants, ListTenantsCommand.execute, try_except,
      bind, execute, query.
    run_reliable c H. reflexivity.
  - unfold AdminApp.fetch_tenant_details, try_except, bind, execute,
      TenantApp.select_tenant, query, fetchone.
    run_reliable c H.
    change (tenants (working c) ++ _)
      with (tenants (AddTenantCommand.inserted cmd (schema c) (working c))).
    rewrite Hsel. reflexivity.
  - unfold LoginPage.tenant_login, LoginPage.select_house_no, try_except, bind,
      execute, query, fetchone.
    run_reliable c H.
    change (tenants (working c) ++ _)
      with (tenants (AddTenantCommand.inserted cmd (schema c) (working c))).
    rewrite Hsel. reflexivity.
Qed.

Lemma added_tenant_is_found_witness :
  let c1 := snd (TenantManager.add_tenant tenant_manager new_tenant sample) in
  fst (AdminApp.show_list_tenants TheConnection c1) =
    Returned (tenants (working sample) ++
                [Tenant.mk (house_no new_tenant) (tenant_name new_tenant)
                   (phone_number new_tenant) (apartment_id new_tenant)
                   (move_in_date new_tenant) (due_amount_default (schema sample))],
              None) /\
  fst (AdminApp.fetch_tenant_details (house_no new_tenant) c1) =
    Returned (Some (TenantManager.tenant_data new_tenant)) /\
  fst (LoginPage.tenant_login (house_no new_tenant) "tenant123" c1) =
    Returned (LoginPage.opens_TenantApp (house_no new_tenant)).
Proof.
  apply (added_tenant_is_found new_tenant sample);
    [intros n; exists 7; reflexivity | reflexivity | reflexivity].
Defined.

(** ** What a payment shows and what it leaves alone *)

Lemma history_recorded h d a m db :
  filter (TenantApp.of_house h) (payments (TenantApp.recorded h d a m db)) =
    filter (TenantApp.of_house h) (payments db) ++
      [Payment.mk (next_id (map Payment.payment_id (payments db))) h d a m].
Proof.
  unfold TenantApp.recorded, set_payments. cbn [payments].
  rewrite filter_app. cbn [filter]. unfold TenantApp.of_house at 2.
  cbn [Payment.house_no]. now rewrite String.eqb_refl.
Qed.

(** X13: a recorded payment is what the tenant then sees.  After a
    successful TenantApp.make_payment of amount A for a tenant with
    due_amount D (server answering), the due-amount box shows D - A, and the
    payment history of the house is the one from before followed by the new
    payment with the date, amount and method that were submitted. *)
Theorem payment_is_shown (c : Connection) (h d : string) (a : Z) (m : string) (D : Z) :
  reliable c ->
  TenantApp.due_amount_of h (working c) = Some (Some D) ->
  let c1 := snd (TenantApp.make_payment h d a m c) in
  fst (TenantApp.view_due_amount h c1) =
    Returned (showinfo "Due Amount"
                ("The due amount for tenant with house number " ++ h ++
                 " is: " ++ str (D - a))) /\
  exists id,
    fst (TenantApp.view_payment_history h c1) =
      Returned (map TenantApp.line_of
                  (filter (TenantApp.of_house h) (payments (working c))) ++
                  [TenantApp.payment_line id d a m],
                None).
Proof.
  intros H HD. cbv zeta.
  rewrite (make_payment_found_run c h d a m H) by (rewrite HD; discriminate).
  cbn [snd].
  assert (Hdue : TenantApp.due_amount_of h
                   (TenantApp.credited h a (TenantApp.recorded h d a m (working c))) =
                 Some (Some (D - a))).
  { rewrite due_amount_of_credited.
    replace (TenantApp.due_amount_of h (TenantApp.recorded h d a m (working c)))
      with (TenantApp.due_amount_of h (working c)) by reflexivity.
    now rewrite HD. }
  assert (Hpaid : filter (TenantApp.of_house h)
                    (payments (TenantApp.credited h a
                                 (TenantApp.recorded h d a m (working c)))) =
                  filter (TenantApp.of_house h) (payments (working c)) ++
                    [Payment.mk (next_id (map Payment.payment_id (payments (working c))))
                       h d a m])
    by apply (history_recorded h d a m (working c)).
  remember (TenantApp.credited h a (TenantApp.recorded h d a m (working c))) as db1.
  split.
  - unfold TenantApp.view_due_amount, try_except, bind, execute, query.
    run_reliable c H. rewrite Hdue. reflexivity.
  - eexists.
    unfold TenantApp.view_payment_history, TenantApp.select_payments, try_except,
      bind, execute, query.
    run_reliable c H. rewrite Hpaid.
    destruct (filter (TenantApp.of_house h) (payments (working c))) as [|p ps];
      cbn [app truthy map fst]; [reflexivity|].
    rewrite map_app. reflexivity.
Qed.

Lemma payment_is_shown_witness :
  let c1 := snd (TenantApp.make_payment "H1" "2024-02-01" 200 "Cash" sample) in
  fst (TenantApp.view_due_amount "H1" c1) =
    Returned (showinfo "Due Amount"
                ("The due amount for tenant with house number " ++ "H1" ++
                 " is: " ++ str (500 - 200))) /\
  exists id,
    fst (TenantApp.view_payment_history "H1" c1) =
      Returned (map TenantApp.line_of
                  (filter (TenantApp.of_house "H1") (payments (working sample))) ++
                  [TenantApp.payment_line id "2024-02-01" 200 "Cash"],
                None).
Proof.
  apply (payment_is_shown sample "H1" "2024-02-01" 200 "Cash" 500);
    [intros n; exists 7; reflexivity | reflexivity].
Defined.

Lemma pay_row_house_any h h' a t :
  house_no_is h' (TenantApp.pay_row h a t) = house_no_is h' t.
Proof. unfold house_no_is. now rewrite house_no_pay_row. Qed.

Lemma charge_row_house_any h h' t :
  house_no_is h' (AdminApp.charge_row h t) = house_no_is h' t.
Proof. unfold house_no_is. now rewrite house_no_charge_row. Qed.

Lemma other_house h h' t :
  h' <> h -> house_no_is h t = true -> house_no_is h' t = false.
Proof.
  unfold house_no_is. intros Hne Ht. apply String.eqb_eq in Ht.
  apply String.eqb_neq. congruence.
Qed.

Lemma due_amount_of_credited_other h h' a db :
  h' <> h ->
  TenantApp.due_amount_of h' (TenantApp.credited h a db) =
    TenantApp.due_amount_of h' db.
Proof.
  intros Hne. unfold TenantApp.due_amount_of, TenantApp.credited, fetchone. cbn.
  induction (tenants db) as [|t ts IH]; cbn; [reflexivity|].
  rewrite pay_row_house_any. destruct (house_no_is h' t) eqn:E; cbn; [|exact IH].
  unfold TenantApp.pay_row. destruct (house_no_is h t) eqn:E'; [|reflexivity].
  rewrite (other_house h h' t Hne E') in E. discriminate.
Qed.

Lemma due_amount_of_charged_other h h' db :
  h' <> h ->
  TenantApp.due_amount_of h' (AdminApp.charged h db) = TenantApp.due_amount_of h' db.
Proof.
  intros Hne. unfold TenantApp.due_amount_of, AdminApp.charged, fetchone. cbn.
  induction (tenants db) as [|t ts IH]; cbn; [reflexivity|].
  rewrite charge_row_house_any. destruct (house_no_is h' t) eqn:E; cbn; [|exact IH].
  unfold AdminApp.charge_row. destruct (house_no_is h t) eqn:E'; [|reflexivity].
  rewrite (other_house h h' t Hne E') in E. discriminate.
Qed.

Lemma history_recorded_other h h' d a m db :
  h' <> h ->
  filter (TenantApp.of_house h') (payments (TenantApp.recorded h d a m db)) =
    filter (TenantApp.of_house h') (payments db).
Proof.
  intros Hne. unfold TenantApp.recorded, set_payments. cbn [payments].
  rewrite filter_app. cbn [filter]. unfold TenantApp.of_house at 2.
  cbn [Payment.house_no].
  destruct (String.eqb_spec h h') as [E|_]; [congruence|]. apply app_nil_r.
Qed.

(** X14: a payment and a maintenance service for house H leave every other
    tenant alone.  If another house H' has the balance [due] and the
    payments [paid] in both copies of the store, it still has them after
    TenantApp.make_payment for H and after AdminApp.provide_service for H,
    whatever the server answers. *)
Theorem other_tenants_are_untouched (c : Connection) (h h' : string)
    (due : option (option Z)) (paid : list Payment.row) :
  h' <> h ->
  let same db :=
    TenantApp.due_amount_of h' db = due /\
    filter (TenantApp.of_house h') (payments db) = paid in
  same (committed c) ->
  same (working c) ->
  (forall d a m, both same (snd (TenantApp.make_payment h d a m c))) /\
  (forall apt, both same (snd (AdminApp.provide_service apt h c))).
Proof.
  intros Hne same Hc Hw. split.
  - intros d a m.
    assert (K : keeps same (TenantApp.make_payment h d a m)).
    { unfold TenantApp.make_payment, TenantApp.insert_payment,
        TenantApp.decrease_due.
      keeps_steps; apply sound_dml; intros db [Hdue Hpaid]; split.
      - exact Hdue.
      - now rewrite history_recorded_other.
      - now rewrite due_amount_of_credited_other.
      - exact Hpaid. }
    apply K. split; assumption.
  - intros apt.
    assert (K : keeps same (AdminApp.provide_service apt h)).
    { unfold AdminApp.provide_service.
      keeps_steps;
        first [ apply sound_dml; intros db [Hdue Hpaid]; split;
                [first [exact Hdue | now rewrite due_amount_of_charged_other]
                |exact Hpaid]
              | unfold AdminApp.join_issues; keeps_steps ]. }
    apply K. split; assumption.
Qed.

Lemma other_tenants_are_untouched_witness :
  let same db :=
    TenantApp.due_amount_of "H2" db = Some (Some 250) /\
    filter (TenantApp.of_house "H2") (payments db) =
      [Payment.mk 1 "H2" "2024-01-20" 100 "Cash"] in
  (forall d a m, both same (snd (TenantApp.make_payment "H1" d a m two_houses))) /\
  (forall apt, both same (snd (AdminApp.provide_service apt "H1" two_houses))).
Proof.
  apply (other_tenants_are_untouched two_houses "H1" "H2" (Some (Some 250))
           [Payment.mk 1 "H2" "2024-01-20" 100 "Cash"]);
    [discriminate | split; reflexivity | split; reflexivity].
Defined.

(** In that store a payment and a service for H1 are carried out: the balance
    of H1 moves, that of H2 stays. *)
Example payment_and_service_for_H1_run :
  let paid := snd (TenantApp.make_payment "H1" "2024-02-01" 200 "Cash" two_houses) in
  let serviced := snd (AdminApp.provide_service 1 "H1" paid) in
  TenantApp.due_amount_of "H1" (committed paid) = Some (Some 300) /\
  TenantApp.due_amount_of "H2" (committed paid) = Some (Some 250) /\
  TenantApp.due_amount_of "H1" (committed serviced) = Some (Some 400) /\
  TenantApp.due_amount_of "H2" (committed serviced) = Some (Some 250) /\
  List.length (payments (committed serviced)) = 2%nat.
Proof. cbv zeta. repeat split. Qed.

(** ** Maintenance requests *)

Lemma request_known_run sd apt h descr c :
  reliable c ->
  TenantApp.due_amount_of h (working c) <> None ->
  TenantApp.request_maintenance sd apt h descr c =
    (Returned (showinfo "Success" "Maintenance request submitted successfully!"),
     settled c 3 (TenantApp.filed sd (clock c (1 + calls c)) apt h descr (working c))).
Proof.
  intros H Hfound.
  unfold TenantApp.request_maintenance, try_except, bind, execute, commit,
    TenantApp.select_tenant, TenantApp.insert_maintenance, query.
  unfold TenantApp.due_amount_of in Hfound.
  run_reliable c H.
  destruct (fetchone (filter (house_no_is h) (tenants (working c)))) as [t|];
    [|now contradiction Hfound].
  run_reliable c H. reflexivity.
Qed.

(** X15: TenantApp.request_maintenance writes one row or nothing.  Whatever
    the server answers, afterwards either the committed store is the one
    from before (and the transaction is untouched or rolled back), or both
    copies are the old working store with exactly one Maintenance row
    appended, holding the apartment, the house, the description (NULL when
    empty) and the column default as status.  Without a Tenant row for the
    house it is always the former; with one and a server that answers it is
    the latter, with the success box. *)
Theorem request_writes_one_row_or_nothing (sd : option string) (apt : Z)
    (h descr : string) (c : Connection) :
  let run := TenantApp.request_maintenance sd apt h descr c in
  let nothing :=
    committed (snd run) = committed c /\
    (working (snd run) = working c \/ working (snd run) = committed c) in
  let one_row :=
    exists now,
      committed (snd run) = working (snd run) /\
      working (snd run) =
        set_maintenance
          (maintenance (working c) ++
             [Maintenance.mk apt h (TenantApp.varchar descr) now sd])
          (working c) in
  (nothing \/ one_row) /\
  (TenantApp.due_amount_of h (working c) = None -> nothing) /\
  (reliable c -> TenantApp.due_amount_of h (working c) <> None ->
   one_row /\
   fst run =
     Returned (showinfo "Success" "Maintenance request submitted successfully!")).
Proof.
  cbv zeta. split; [|split].
  - unfold TenantApp.request_maintenance, try_except, bind, execute, commit,
      rollback, TenantApp.select_tenant, TenantApp.insert_maintenance, query.
    cbn.
    destruct (env c (calls c)) eqn:E0; cbn; [|auto].
    destruct (fetchone (filter (house_no_is h) (tenants (working c)))); cbn; [|auto].
    destruct (env c (S (calls c))) eqn:E1; cbn; [|auto].
    destruct (env c (S (S (calls c)))) eqn:E2; cbn; [|auto].
    right. eexists. split; reflexivity.
  - intros Hnone. unfold TenantApp.due_amount_of in Hnone.
    unfold TenantApp.request_maintenance, try_except, bind, execute, commit,
      rollback, TenantApp.select_tenant, query.
    destruct (fetchone (filter (house_no_is h) (tenants (working c)))) eqn:Hf;
      [discriminate|].
    cbn. destruct (env c (calls c)); cbn; rewrite ?Hf; cbn; auto.
  - intros H Hfound. rewrite (request_known_run sd apt h descr c H Hfound).
    cbn [fst snd settled committed working]. split; [|reflexivity].
    eexists. split; reflexivity.
Qed.

Lemma request_writes_one_row_or_nothing_witness :
  let run := TenantApp.request_maintenance (Some "Pending"%string) 1 "H1" "" sample in
  (exists now,
      committed (snd run) = working (snd run) /\
      working (snd run) =
        set_maintenance
          (maintenance (working sample) ++
             [Maintenance.mk 1 "H1" (TenantApp.varchar "") now (Some "Pending"%string)])
          (working sample)) /\
  fst run =
    Returned (showinfo "Success" "Maintenance request submitted successfully!").
Proof.
  apply (proj2 (proj2 (request_writes_one_row_or_nothing
                         (Some "Pending"%string) 1 "H1" "" sample)));
    [intros n; exists 7; reflexivity | discriminate].
Defined.

Lemma of_pair_refl apt h descr now sd :
  AdminApp.of_pair apt h (Maintenance.mk apt h descr now sd) = true.
Proof.
  unfold AdminApp.of_pair. cbn. now rewrite Z.eqb_refl, String.eqb_refl.
Qed.

Lemma open_rows_filed sd now apt h descr db :
  open_rows apt h (TenantApp.filed sd now apt h descr db) =
    open_rows apt h db ++
      (if billable sd then [Maintenance.mk apt h (TenantApp.varchar descr) now sd]
       else []).
Proof.
  unfold open_rows, TenantApp.filed, set_maintenance. cbn [maintenance].
  rewrite filter_app. cbn [filter]. rewrite of_pair_refl.
  unfold AdminApp.not_completed, billable. cbn [Maintenance.status andb].
  reflexivity.
Qed.

Lemma registered_rows_filed sd now apt h descr db :
  truthy (registered_rows apt h (TenantApp.filed sd now apt h descr db)) = true.
Proof.
  unfold registered_rows, TenantApp.filed, set_maintenance. cbn [maintenance].
  rewrite filter_app. cbn [filter]. rewrite of_pair_refl.
  now destruct (filter _ (maintenance db)).
Qed.

(** X16: whether a new complaint can be serviced depends on the column
    default of Maintenance.status.  Take a tenant H with due_amount D and no
    open complaint for (apt, H), and a server that answers; H files a
    complaint and the administrator provides the service.  If the default
    status is a value other than 'Completed', the service is carried out and
    the due_amount becomes D + 100.  If the default is NULL or 'Completed',
    provide_service answers "Maintenance service already completed." and
    the due_amount stays D: [status != 'Completed'] does not hold of it. *)
Theorem new_complaint_and_status_default (sd : option string) (apt : Z)
    (h descr : string) (D : Z) (c : Connection) :
  reliable c ->
  TenantApp.due_amount_of h (working c) = Some (Some D) ->
  open_rows apt h (working c) = [] ->
  let c1 := snd (TenantApp.request_maintenance sd apt h descr c) in
  let service := AdminApp.provide_service apt h c1 in
  if billable sd
  then TenantApp.due_amount_of h (committed (snd service)) = Some (Some (D + 100)) /\
       open_rows apt h (committed (snd service)) = [] /\
       (forall text, fst service <> Returned (inr text))
  else fst service = Returned (inl AdminApp.already_completed) /\
       TenantApp.due_amount_of h (committed (snd service)) = Some (Some D).
Proof.
  intros H HD Hopen. cbv zeta.
  rewrite (request_known_run sd apt h descr c H) by (rewrite HD; discriminate).
  cbn [snd].
  set (db1 := TenantApp.filed sd (clock c (1 + calls c)) apt h descr (working c)).
  assert (Hdue1 : TenantApp.due_amount_of h db1 = Some (Some D)) by exact HD.
  assert (Hreg : truthy (registered_rows apt h db1) = true)
    by apply registered_rows_filed.
  assert (Hopen1 : open_rows apt h db1 =
                   if billable sd
                   then [Maintenance.mk apt h (TenantApp.varchar descr)
                           (clock c (1 + calls c)) sd]
                   else []).
  { unfold db1. rewrite open_rows_filed, Hopen. reflexivity. }
  assert (Hrel : reliable (settled c 3 db1)) by now apply reliable_settled.
  destruct (billable sd).
  - rewrite (provide_service_open_run (settled c 3 db1) apt h Hrel)
      by (cbn [settled working]; now rewrite Hopen1).
    rewrite report_state. cbn [settled committed working]. repeat split.
    + rewrite due_amount_of_charged.
      replace (TenantApp.due_amount_of h (AdminApp.completed apt h db1))
        with (TenantApp.due_amount_of h db1) by reflexivity.
      now rewrite Hdue1.
    + change (open_rows apt h (AdminApp.completed apt h db1) = []).
      apply completed_none_open.
    + intros text. rewrite report_cases.
      destruct (strings 0 _); cbn [fst]; discriminate.
  - rewrite (provide_service_done_run (settled c 3 db1) apt h Hrel)
      by (cbn [settled working]; first [exact Hreg | now rewrite Hopen1]).
    cbn [fst snd next_call settled committed]. split; [reflexivity|exact Hdue1].
Qed.

Lemma new_complaint_and_status_default_witness :
  let c1 := snd (TenantApp.request_maintenance None 2 "H1" "No hot water" sample) in
  let service := AdminApp.provide_service 2 "H1" c1 in
  fst service = Returned (inl AdminApp.already_completed) /\
  TenantApp.due_amount_of "H1" (committed (snd service)) = Some (Some 500).
Proof.
  apply (new_complaint_and_status_default None 2 "H1" "No hot water" 500 sample);
    [intros n; exists 7; reflexivity | reflexivity | reflexivity].
Defined.

Example new_complaint_is_serviced_run :
  let c1 := snd (TenantApp.request_maintenance (Some "Pending"%string) 2 "H1"
                   "No hot water" sample) in
  let service := AdminApp.provide_service 2 "H1" c1 in
  fst service =
    Returned (inl ("Maintenance Service Completed for Apartment ID: 2, " ++
                   "House No: H1. Issues Fixed: No hot water")%string) /\
  TenantApp.due_amount_of "H1" (committed (snd service)) = Some (Some 600).
Proof. split; reflexivity. Qed.

(** ** Logging in *)

Lemma found_iff_exists h ts :
  fetchone (map Tenant.house_no (filter (house_no_is h) ts)) <> None <->
  existsb (house_no_is h) ts = true.
Proof.
  induction ts as [|t ts IH]; cbn; [split; [congruence|discriminate]|].
  destruct (house_no_is h t); cbn; [split; [reflexivity|discriminate]|exact IH].
Qed.

(** X17: who gets in.  LoginPage.admin_login opens the administrator's
    window exactly for the user 'admin' with the password 'admin123'.
    LoginPage.tenant_login opens a tenant's window only for the shared
    password 'tenant123' and a house number that has a Tenant row, and then
    for that house number.  With any other password it sends nothing to the
    server and, instead of the 'Login Failed' box, fails on the local
    variable tenant_data, which was never assigned. *)
Theorem who_gets_in (username password house_no : string) (c : Connection) :
  (LoginPage.admin_login username password = LoginPage.opens_AdminApp <->
   username = "admin"%string /\ password = "admin123"%string) /\
  (forall h, fst (LoginPage.tenant_login house_no password c) =
             Returned (LoginPage.opens_TenantApp h) ->
             password = "tenant123"%string /\ h = house_no /\
             existsb (house_no_is house_no) (tenants (working c)) = true) /\
  (password <> "tenant123"%string ->
   LoginPage.tenant_login house_no password c =
     (Returned (LoginPage.UnboundLocalError "tenant_data"), c)).
Proof.
  split; [|split].
  - unfold LoginPage.admin_login.
    destruct (String.eqb_spec username "admin") as [->|Hu];
      destruct (String.eqb_spec password "admin123") as [->|Hp]; cbn;
      split; try discriminate; try tauto; intros [? ?]; congruence.
  - intros h.
    unfold LoginPage.tenant_login, LoginPage.select_house_no, try_except, bind,
      execute, query.
    destruct (String.eqb_spec password "tenant123") as [->|Hp]; cbn;
      [|discriminate].
    destruct (env c (calls c)); cbn; [|discriminate].
    destruct (fetchone _) eqn:Hf; cbn; [|discriminate].
    intros E. injection E as <-. repeat split.
    apply found_iff_exists. rewrite Hf. discriminate.
  - intros Hp. unfold LoginPage.tenant_login, try_except, bind, ret.
    destruct (String.eqb_spec password "tenant123"); [contradiction|reflexivity].
Qed.

Lemma who_gets_in_witness :
  LoginPage.tenant_login "H1" "letmein" sample =
    (Returned (LoginPage.UnboundLocalError "tenant_data"), sample) /\
  ("tenant123"%string = "tenant123"%string /\ "H1"%string = "H1"%string /\
   existsb (house_no_is "H1") (tenants (working sample)) = true).
Proof.
  split.
  - apply (proj2 (proj2 (who_gets_in "" "letmein" "H1" sample))). discriminate.
  - apply (proj1 (proj2 (who_gets_in "" "tenant123" "H1" sample)) "H1"%string).
    reflexivity.
Defined.

(** ** The list views *)

(** X18: the two list views treat a failed query differently.
    AdminApp.show_list_apartments shows the Apartment rows when the query
    is answered and an empty list, without any message box, when it raised:
    a failure looks like an empty table.  AdminApp.show_list_tenants shows
    the Tenant rows, and for a failed query an empty list together with the
    box 'Failed to fetch tenant data.'.  Neither changes the store. *)
Theorem list_views (c : Connection) :
  AdminApp.show_list_apartments TheConnection c =
    (Returned match env c (calls c) with
              | Done _ => apartments (working c)
              | Refused _ => []
              end,
     next_call c) /\
  AdminApp.show_list_tenants TheConnection c =
    (Returned match env c (calls c) with
              | Done _ => (tenants (working c), None)
              | Refused _ =>
                  ([], Some (showerror "Error" "Failed to fetch tenant data."))
              end,
     next_call c).
Proof.
  unfold AdminApp.show_list_apartments, AdminApp.show_list_tenants,
    ListApartmentsCommand.execute, ListTenantsCommand.execute,
    ListApartmentsCommand.select_apartments, try_except, bind, execute, query.
  destruct (env c (calls c)); cbn; split; try reflexivity.
  destruct (apartments (working c)); reflexivity.
Qed.

(** ** The complaints view *)

Lemma in_joined_complaints db line :
  In line (AdminApp.joined_complaints db) <->
  exists m t a,
    In m (maintenance db) /\ In t (tenants db) /\ In a (apartments db) /\
    Maintenance.house_no m = Tenant.house_no t /\
    Apartment.apartment_id a = Maintenance.apartment_id m /\
    line = AdminApp.complaint_of m t a.
Proof.
  unfold AdminApp.joined_complaints. split.
  - intros Hin. apply in_flat_map in Hin. destruct Hin as [m [Hm Hin]].
    apply in_flat_map in Hin. destruct Hin as [t [Ht Hin]].
    apply in_map_iff in Hin. destruct Hin as [a [Hline Ha]].
    apply filter_In in Ht. destruct Ht as [Ht Hmt].
    apply filter_In in Ha. destruct Ha as [Ha Hma].
    apply String.eqb_eq in Hmt. apply Z.eqb_eq in Hma.
    exists m, t, a. repeat split; auto.
  - intros [m [t [a [Hm [Ht [Ha [Hmt [Hma ->]]]]]]]].
    apply in_flat_map. exists m. split; [exact Hm|].
    apply in_flat_map. exists t. split.
    + apply filter_In. split; [exact Ht|]. now apply String.eqb_eq.
    + apply in_map. apply filter_In. split; [exact Ha|]. now apply Z.eqb_eq.
Qed.

(** X19: what the complaints view lists.  When the query is answered,
    AdminApp.display_complaints_gui shows a complaint for exactly the
    triples of a Maintenance row, a Tenant row with the same house_no and an
    Apartment row with the same apartment_id, with the columns taken from
    these three rows; a Maintenance row whose tenant or apartment is missing
    is not listed.  When there is no such triple it shows the single line
    'No complaints registered.'. *)
Theorem complaints_listed (c : Connection) (now : Z) :
  env c (calls c) = Done now ->
  exists lines,
    fst (AdminApp.display_complaints_gui c) = Returned (lines, None) /\
    (forall m t a,
        In m (maintenance (working c)) -> In t (tenants (working c)) ->
        In a (apartments (working c)) ->
        Maintenance.house_no m = Tenant.house_no t ->
        Apartment.apartment_id a = Maintenance.apartment_id m ->
        In (AdminApp.complaint_of m t a) lines) /\
    (forall line, In line lines ->
        (line = AdminApp.no_complaints_registered /\
         lines = [AdminApp.no_complaints_registered] /\
         AdminApp.joined_complaints (working c) = []) \/
        exists m t a,
          In m (maintenance (working c)) /\ In t (tenants (working c)) /\
          In a (apartments (working c)) /\
          Maintenance.house_no m = Tenant.house_no t /\
          Apartment.apartment_id a = Maintenance.apartment_id m /\
          line = AdminApp.complaint_of m t a).
Proof.
  intros Hnow.
  unfold AdminApp.display_complaints_gui, try_except, bind, execute, query.
  rewrite Hnow. cbn.
  destruct (AdminApp.joined_complaints (working c)) as [|l ls] eqn:Hj.
  - exists [AdminApp.no_complaints_registered]. repeat split.
    + intros m t a Hm Ht Ha Hmt Hma.
      assert (Hin : In (AdminApp.complaint_of m t a)
                      (AdminApp.joined_complaints (working c)))
        by (apply in_joined_complaints; exists m, t, a; repeat split; assumption).
      rewrite Hj in Hin. destruct Hin.
    + intros line [<-|[]]. left. auto.
  - exists (l :: ls). repeat split.
    + intros m t a Hm Ht Ha Hmt Hma. rewrite <- Hj.
      apply in_joined_complaints. exists m, t, a. repeat split; assumption.
    + intros line Hin. right. apply in_joined_complaints. now rewrite Hj.
Qed.

Lemma complaints_listed_witness :
  exists lines,
    fst (AdminApp.display_complaints_gui sample) = Returned (lines, None) /\
    (forall m t a,
        In m (maintenance (working sample)) -> In t (tenants (working sample)) ->
        In a (apartments (working sample)) ->
        Maintenance.house_no m = Tenant.house_no t ->
        Apartment.apartment_id a = Maintenance.apartment_id m ->
        In (AdminApp.complaint_of m t a) lines) /\
    (forall line, In line lines ->
        (line = AdminApp.no_complaints_registered /\
         lines = [AdminApp.no_complaints_registered] /\
         AdminApp.joined_complaints (working sample) = []) \/
        exists m t a,
          In m (maintenance (working sample)) /\ In t (tenants (working sample)) /\
          In a (apartments (working sample)) /\
          Maintenance.house_no m = Tenant.house_no t /\
          Apartment.apartment_id a = Maintenance.apartment_id m /\
          line = AdminApp.complaint_of m t a).
Proof.
  apply (complaints_listed sample 7). reflexivity.
Defined.

Example complaints_run :
  fst (AdminApp.display_complaints_gui sample) =
    Returned
      ([AdminApp.complaint "Lake View" "H1" (Some "Leaking tap"%string) 10
          (Some "Pending"%string) "Asha" "555-0101" "12 Shore Road";
        AdminApp.complaint "Lake View" "H1" (Some "Broken window"%string) 11
          (Some "In Progress"%string) "Asha" "555-0101" "12 Shore Road";
        AdminApp.complaint "Lake View" "H1" (Some "Loose tile"%string) 3
          (Some "Completed"%string) "Asha" "555-0101" "12 Shore Road"],
       None).
Proof. reflexivity. Qed.

(** ** The add-tenant form *)

(** X21: what the add-tenant form lets through.  If a field is empty, the
    date does not parse or the apartment id is no integer,
    AdminApp.add_tenant does not touch the connection and does not report
    success (a warning, an error box, or the uncaught ValueError of int).
    But for well-formed input whose house number already has a Tenant row,
    it shows 'Tenant added successfully' although the Tenant table is
    unchanged: the form never learns that the INSERT failed. *)
Theorem add_form (strptime : string -> option date) (int : string -> option Z)
    (h n p a d : string) (c : Connection) :
  let run := AdminApp.add_tenant strptime int tenant_manager h n p a d c in
  let success := Returned (AdminApp.shown (showinfo "Success" "Tenant added successfully")) in
  (AdminApp.filled [h; n; p; a; d] = false \/ strptime d = None \/ int a = None ->
   snd run = c /\ fst run <> success) /\
  (reliable c ->
   AdminApp.filled [h; n; p; a; d] = true ->
   strptime d <> None -> int a <> None ->
   existsb (house_no_is h) (tenants (working c)) = true ->
   fst run = success /\ tenants (committed (snd run)) = tenants (committed c)).
Proof.
  cbv zeta. unfold AdminApp.add_tenant. split.
  - intros Hbad.
    destruct (AdminApp.filled [h; n; p; a; d]);
      [|cbn; split; [reflexivity|discriminate]].
    destruct Hbad as [E|Hbad]; [discriminate|]. cbn [negb].
    destruct (strptime d); [|cbn; split; [reflexivity|discriminate]].
    destruct Hbad as [E|Hbad]; [discriminate|].
    rewrite Hbad. cbn. split; [reflexivity|discriminate].
  - intros H Hfilled Hdate Hint Hdup. rewrite Hfilled. cbn [negb].
    destruct (strptime d) as [date|]; [|contradiction].
    destruct (int a) as [apartment|]; [|contradiction].
    unfold bind.
    rewrite (manager_add_duplicate_run c
               (mkTenantCommand TheConnection h n p apartment date) H eq_refl Hdup).
    cbn. split; reflexivity.
Qed.

Lemma add_form_witness :
  let date_of (text : string) := if String.eqb text "2024-02-01" then Some (2024, 2, 1)
                                 else None in
  let int_of (text : string) := if String.eqb text "1" then Some 1 else None in
  (snd (AdminApp.add_tenant date_of int_of tenant_manager "H2" "Ben" "555-0102" "one"
          "2024-02-01" sample) = sample /\
   fst (AdminApp.add_tenant date_of int_of tenant_manager "H2" "Ben" "555-0102" "one"
          "2024-02-01" sample) <>
     Returned (AdminApp.shown (showinfo "Success" "Tenant added successfully"))) /\
  (fst (AdminApp.add_tenant date_of int_of tenant_manager "H1" "Ben" "555-0102" "1"
          "2024-02-01" sample) =
     Returned (AdminApp.shown (showinfo "Success" "Tenant added successfully")) /\
   tenants (committed (snd (AdminApp.add_tenant date_of int_of tenant_manager "H1"
                              "Ben" "555-0102" "1" "2024-02-01" sample))) =
     tenants (committed sample)).
Proof.
  cbv zeta. split.
  - apply (proj1 (add_form _ _ "H2" "Ben" "555-0102" "one" "2024-02-01" sample)).
    right. right. reflexivity.
  - apply (proj2 (add_form _ _ "H1" "Ben" "555-0102" "1" "2024-02-01" sample));
      [intros k; exists 7; reflexivity | reflexivity | discriminate | discriminate
      | reflexivity].
Defined.

(** ** The latest modification after a mutation *)

Lemma max_change_date_snoc rows r :
  (forall x, In x rows -> Audit_Tenant.change_date x <= Audit_Tenant.change_date r) ->
  AdminApp.max_change_date (rows ++ [r]) = Some (Audit_Tenant.change_date r).
Proof.
  induction rows as [|x rows IH]; intros Hle; [reflexivity|].
  change (AdminApp.max_change_date ((x :: rows) ++ [r]))
    with (match AdminApp.max_change_date (rows ++ [r]) with
          | None => Some (Audit_Tenant.change_date x)
          | Some m => Some (Z.max (Audit_Tenant.change_date x) m)
          end).
  rewrite IH by (intros y Hy; apply Hle; now right).
  f_equal. apply Z.max_r. apply Hle. now left.
Qed.

Lemma display_latest_run c now m :
  env c (calls c) = Done now ->
  AdminApp.max_change_date (audit_tenant (working c)) = Some m ->
  fst (AdminApp.display_latest_modifications_gui c) =
    Returned match map AdminApp.selected
                     (filter (fun r => Audit_Tenant.change_date r =? m)
                        (audit_tenant (working c))) with
             | [] => ([], Some (showwarning "Warning" "No modifications made yet"))
             | infos => (infos, None)
             end.
Proof.
  intros Hnow Hm.
  unfold AdminApp.display_latest_modifications_gui, try_except, bind, execute,
    AdminApp.select_latest, query.
  rewrite Hnow, Hm. cbn.
  destruct (map AdminApp.selected _); reflexivity.
Qed.

(** X22: the entry of a mutation is among the latest modifications if the
    server clock did not run backwards.  After a successful
    TenantManager.add_tenant (server answering, fresh house_no, the manager
    of the main program), if no Audit_Tenant row has a change_date later
    than the server time of the audit write,
    AdminApp.display_latest_modifications_gui returns the INSERT entry of
    the new tenant, and every entry it returns carries that time. *)
Theorem added_tenant_is_latest (cmd : TenantCommand) (c : Connection) :
  reliable c ->
  connection cmd = TheConnection ->
  existsb (house_no_is (house_no cmd)) (tenants (working c)) = false ->
  (forall r, In r (audit_tenant (working c)) ->
             Audit_Tenant.change_date r <= clock c (2 + calls c)) ->
  let c1 := snd (TenantManager.add_tenant tenant_manager cmd c) in
  exists infos,
    fst (AdminApp.display_latest_modifications_gui c1) = Returned (infos, None) /\
    In (next_id (map Audit_Tenant.audit_id (audit_tenant (working c))),
        house_no cmd, "INSERT"%string, clock c (2 + calls c)) infos /\
    (forall i, In i infos -> snd i = clock c (2 + calls c)).
Proof.
  intros H Hc Hfresh Hclock. cbv zeta.
  rewrite (manager_add_fresh_run c cmd H Hc Hfresh). cbn [snd].
  set (row := Audit_Tenant.mk
                (next_id (map Audit_Tenant.audit_id (audit_tenant (working c))))
                (house_no cmd) (Some (tenant_name cmd)) (Some (phone_number cmd))
                (Some (apartment_id cmd)) (Some (move_in_date cmd)) "INSERT"
                (clock c (2 + calls c))).
  set (c1 := settled c 4 _).
  assert (Haudit : audit_tenant (working c1) = audit_tenant (working c) ++ [row])
    by reflexivity.
  assert (Hmax : AdminApp.max_change_date (audit_tenant (working c1)) =
                 Some (clock c (2 + calls c)))
    by (rewrite Haudit; now apply (max_change_date_snoc _ row)).
  assert (Hrow : In (AdminApp.selected row)
                   (map AdminApp.selected
                      (filter (fun r => Audit_Tenant.change_date r =?
                                        clock c (2 + calls c))
                         (audit_tenant (working c1))))).
  { apply in_map, filter_In. split.
    - rewrite Haudit. apply in_or_app. right. now left.
    - apply Z.eqb_refl. }
  rewrite (display_latest_run c1 (clock c (4 + calls c)) _ (reliable_env c _ H) Hmax).
  destruct (map AdminApp.selected _) as [|i infos] eqn:Hinfos; [destruct Hrow|].
  exists (i :: infos). split; [reflexivity|]. split; [exact Hrow|].
  intros j Hj. rewrite <- Hinfos in Hj. apply in_map_iff in Hj.
  destruct Hj as [r [<- Hr]]. apply filter_In in Hr. destruct Hr as [_ Hr].
  apply Z.eqb_eq in Hr. exact Hr.
Qed.

Lemma added_tenant_is_latest_witness :
  let c1 := snd (TenantManager.add_tenant tenant_manager new_tenant sample) in
  exists infos,
    fst (AdminApp.display_latest_modifications_gui c1) = Returned (infos, None) /\
    In (next_id (map Audit_Tenant.audit_id (audit_tenant (working sample))),
        house_no new_tenant, "INSERT"%string, clock sample (2 + calls sample)) infos /\
    (forall i, In i infos -> snd i = clock sample (2 + calls sample)).
Proof.
  apply (added_tenant_is_latest new_tenant sample);
    [intros n; exists 7; reflexivity | reflexivity | reflexivity | intros r []].
Defined.

(** ** The update-tenant form *)

(** X23: what the update-tenant form lets through.  If a field is empty, the
    date does not parse or the apartment id is no integer,
    AdminApp.update_tenant does not touch the connection and does not report
    success.  But for well-formed input whose house number has no Tenant
    row, it shows 'Tenant updated successfully' although no Tenant row was
    changed. *)
Theorem update_form (strptime : string -> option date) (int : string -> option Z)
    (h n p a d : string) (c : Connection) :
  let run := AdminApp.update_tenant strptime int tenant_manager h n p a d c in
  let success :=
    Returned (AdminApp.shown (showinfo "Success" "Tenant updated successfully")) in
  (AdminApp.filled [h; n; p; a; d] = false \/ strptime d = None \/ int a = None ->
   snd run = c /\ fst run <> success) /\
  (reliable c ->
   AdminApp.filled [h; n; p; a; d] = true ->
   strptime d <> None -> int a <> None ->
   existsb (house_no_is h) (tenants (working c)) = false ->
   fst run = success /\
   tenants (working (snd run)) = tenants (working c) /\
   tenants (committed (snd run)) = tenants (working c)).
Proof.
  cbv zeta. unfold AdminApp.update_tenant. split.
  - intros Hbad.
    destruct (AdminApp.filled [h; n; p; a; d]);
      [|cbn; split; [reflexivity|discriminate]].
    destruct Hbad as [E|Hbad]; [discriminate|]. cbn [negb].
    destruct (strptime d); [|cbn; split; [reflexivity|discriminate]].
    destruct Hbad as [E|Hbad]; [discriminate|].
    rewrite Hbad. cbn. split; [reflexivity|discriminate].
  - intros H Hfilled Hdate Hint Hunknown. rewrite Hfilled. cbn [negb].
    destruct (strptime d) as [date|]; [|contradiction].
    destruct (int a) as [apartment|]; [|contradiction].
    unfold bind.
    rewrite (manager_update_run c
               (mkTenantCommand TheConnection h n p apartment date) H eq_refl).
    cbn. rewrite updated_unknown by exact Hunknown. repeat split.
Qed.

Lemma update_form_witness :
  let date_of (text : string) := if String.eqb text "2024-02-01" then Some (2024, 2, 1)
                                 else None in
  let int_of (text : string) := if String.eqb text "1" then Some 1 else None in
  let run :=
    AdminApp.update_tenant date_of int_of tenant_manager "H2" "Ben" "555-0102" "1"
      "2024-02-01" sample in
  fst run =
    Returned (AdminApp.shown (showinfo "Success" "Tenant updated successfully")) /\
  tenants (working (snd run)) = tenants (working sample) /\
  tenants (committed (snd run)) = tenants (working sample).
Proof.
  cbv zeta.
  apply (proj2 (update_form _ _ "H2" "Ben" "555-0102" "1" "2024-02-01" sample));
    [intros k; exists 7; reflexivity | reflexivity | discriminate | discriminate
    | reflexivity].
Defined.

(** ** The singleton connection and the main program *)

(** X24: the first connection wins.  Once DatabaseConnection(user, password,
    dsn) has connected, every later construction, with whatever arguments
    and whatever the server would answer, returns the same instance and
    get_connection keeps returning the session of the first arguments.  A
    construction that was refused returns None and leaves the class as it
    was before, so that the next one connects again. *)
Theorem first_connection_wins
    (refused refused' : string -> string -> string -> option string)
    (user password dsn user' password' dsn' : string) :
  let first := DatabaseConnection.new refused user password dsn None in
  let second := DatabaseConnection.new refused' user' password' dsn' (snd first) in
  (refused user password dsn = None ->
   fst second = fst first /\ snd second = snd first /\
   DatabaseConnection.get_connection (snd second) =
     Some (DatabaseConnection.connect user password dsn)) /\
  (refused user password dsn <> None ->
   fst first = None /\ DatabaseConnection.get_connection (snd first) = None /\
   second = DatabaseConnection.new refused' user' password' dsn' None).
Proof.
  cbv zeta. unfold DatabaseConnection.new. split.
  - intros ->. cbn. repeat split.
  - intros Hrefused. destruct (refused user password dsn); [|contradiction].
    cbn. repeat split.
Qed.

Lemma first_connection_wins_witness :
  let up (_ _ _ : string) : option string := None in
  let down (_ _ _ : string) := Some "ORA-12541: TNS:no listener"%string in
  let first := DatabaseConnection.new up "system" "bommi" "localhost:1521" None in
  let second := DatabaseConnection.new down "scott" "tiger" "db:1521" (snd first) in
  fst second = fst first /\ snd second = snd first /\
  DatabaseConnection.get_connection (snd second) =
    Some (DatabaseConnection.connect "system" "bommi" "localhost:1521").
Proof.
  cbv zeta.
  apply (proj1 (first_connection_wins (fun _ _ _ => None)
                  (fun _ _ _ => Some "ORA-12541: TNS:no listener"%string)
                  "system" "bommi" "localhost:1521" "scott" "tiger" "db:1521")).
  reflexivity.
Defined.

(** X25: the main program never prints its failure message.  With the
    credentials taken from the environment (or their defaults), it enters
    the login page with a manager that has exactly one observer and with the
    session of those credentials when the server accepts them; when the
    server refuses them, DatabaseConnection(...) is None and the call of
    get_connection on it raises AttributeError.  The branch that prints
    'Failed to create a valid database connection.' is never taken. *)
Theorem main_never_reports_failure (environ : string -> option string)
    (refused : string -> string -> string -> option string) :
  let DB_USER := getenv environ "DB_USER" "system" in
  let DB_PASSWORD := getenv environ "DB_PASSWORD" "bommi" in
  let DB_DSN := getenv environ "DB_DSN" "localhost:1521" in
  (forall text, main environ refused <> printed text) /\
  (refused DB_USER DB_PASSWORD DB_DSN = None ->
   main environ refused =
     LoginPage_mainloop tenant_manager
       (DatabaseConnection.connect DB_USER DB_PASSWORD DB_DSN) /\
   List.length (TenantManager.observers tenant_manager) = 1%nat) /\
  (refused DB_USER DB_PASSWORD DB_DSN <> None ->
   exists message, main environ refused = AttributeError message).
Proof.
  cbv zeta. unfold main, DatabaseConnection.new.
  destruct (refused _ _ _) as [message|]; cbn; repeat split;
    try discriminate; try contradiction.
  eexists. reflexivity.
Qed.

Lemma main_never_reports_failure_witness :
  exists message,
    main (fun _ => None) (fun _ _ _ => Some "ORA-12541: TNS:no listener"%string) =
      AttributeError message.
Proof.
  apply (proj2 (proj2 (main_never_reports_failure (fun _ => None)
                         (fun _ _ _ => Some "ORA-12541: TNS:no listener"%string)))).
  discriminate.
Defined.
